(** * cetus_hedge.py: the hedged liquidity bot [CetusHedgeBot]

    A shallow embedding of [src/cetus_hedge.py] and the properties of its
    range arithmetic, drift check, deposit scaling and rebalance sequence.

    Conventions of the model.
    - In the methods, Python numbers ([float] and [int] operands of [*],
      [/], [+], [-]) are exact rationals [Q]: the formulas, the calls and
      the control flow are those of the code, rounding is left out.
      [int(x)] is truncation toward zero, [x / 0] raises [ZeroDivisionError].
      Where rounding decides the outcome, module [Double] models the same
      arithmetic on binary64 floats and unbounded ints.
    - A method runs on the bot ([self] and the services it talks to) and
      yields the bot afterwards, the calls it made to the outside, in order,
      and either a value or the exception it raised.  Only exceptions derived
      from [Exception] are modelled.
    - [remove_liquidity], [close_hedge_position], [initialize_position],
      [send_alert] and [get_pool_position] are called on [self] but the class
      does not define them: they are operations of the environment, like the
      exchange and chain clients. *)

From Stdlib Require Import ZArith QArith Qabs Qround Qpower Qfield Lqa List.
From Stdlib Require Import Floats Uint63.
From stdpp Require Import base strings gmap.
Import ListNotations.

Open Scope string_scope.
Open Scope list_scope.

(** ** Python values and exceptions *)

Inductive pyval : Type :=
  | VNone
  | VNum (q : Q)
  | VStr (s : string).

(** An exception instance: its class name and [str(e)]. *)
Record exn : Type := mkExn { exn_type : string; exn_str : string }.

Inductive result (A : Type) : Type :=
  | Ok (a : A)
  | Raise (e : exn).
Arguments Ok {A} a.
Arguments Raise {A} e.

Definition ZeroDivisionError : exn := mkExn "ZeroDivisionError" "float division by zero".
Definition KeyError (k : string) : exn := mkExn "KeyError" ("'" +:+ k +:+ "'").
Definition TypeError (msg : string) : exn := mkExn "TypeError" msg.
Definition ValueError (msg : string) : exn := mkExn "ValueError" msg.
Definition Exception (msg : string) : exn := mkExn "Exception" msg.

(** [d[k]] on a dict. *)
Definition getitem (d : gmap string pyval) (k : string) : result pyval :=
  match d !! k with
  | Some v => Ok v
  | None => Raise (KeyError k)
  end.

(** [v * x] for a float [x]: defined on numbers only ([str * int], which
    repeats the str, is in [Double.py_mul]). *)
Definition mul_num (v : pyval) (x : Q) : result Q :=
  match v with
  | VNum q => Ok (q * x)%Q
  | VNone => Raise (TypeError "unsupported operand type(s) for *: 'NoneType' and 'float'")
  | VStr _ => Raise (TypeError "can't multiply sequence by non-int of type 'float'")
  end.

(** [abs(v)]. *)
Definition py_abs (v : pyval) : result pyval :=
  match v with
  | VNum q => Ok (VNum (Qabs q))
  | VNone => Raise (TypeError "bad operand type for abs(): 'NoneType'")
  | VStr _ => Raise (TypeError "bad operand type for abs(): 'str'")
  end.

(** [a / b]. *)
Definition truediv (a b : Q) : result Q :=
  if Qeq_bool b 0 then Raise ZeroDivisionError else Ok (a / b)%Q.

(** [int(x)]: truncation toward zero. *)
Definition py_int (x : Q) : Z := Z.quot (Qnum x) (Z.pos (Qden x)).

(** [10**n] for an integer [n] (a negative [n] gives the reciprocal). *)
Definition pow10 (n : Z) : Q := Qpower (10 # 1) n.

(** ** Configuration: the keys of [config.yaml] the program reads *)

Record Config : Type := mkConfig {
  base_amount : Q;            (* strategy.base_amount *)
  price_range : Q;            (* strategy.price_range *)
  rebalance_threshold : Q;    (* strategy.rebalance_threshold *)
  check_interval : Q;         (* strategy.check_interval *)
  sui_decimals : Z;           (* tokens.sui.decimals *)
  usdc_decimals : Z;          (* tokens.usdc.decimals *)
  sui_type : string;          (* tokens.sui.type *)
  usdc_type : string;         (* tokens.usdc.type *)
  pool_address : string;      (* cetus.pool_address *)
  chat_id : string;           (* notifications.telegram.chat_id *)
  other_settings : gmap string Q  (* numeric keys of the file the program never reads *)
}.

(** ** The Move call built by [add_liquidity] *)

Inductive tx_arg : Type :=
  | ArgObject (address : string)          (* txer.object(a) *)
  | ArgSplitCoins (amounts : list Z)      (* txer.split_coins(txer.gas, [SuiU64(n), ...]) *)
  | ArgU64 (n : Z)                        (* SuiU64(n) *)
  | ArgPure (x : Q).                      (* txer.pure(x) *)

Record move_call : Type := mkMoveCall {
  target : string;
  arguments : list tx_arg;
  type_arguments : list string
}.

(** What [txer.execute()] returns: [is_ok()] with [result_data], or not with
    [result_string]. *)
Inductive SuiRpcResult : Type :=
  | RpcOk (result_data : pyval)
  | RpcFailed (result_string : string).

(** ** Calls to the outside, as they appear in a run *)

Inductive event : Type :=
  | EvFetchTicker (symbol : string)
  | EvCreateMarketSellOrder (symbol : string) (amount : Q) (position_side : string)
  | EvFetchPosition (symbol : string)
  | EvExecute (call : move_call)
  | EvSendMessage (chat : string) (text : string)
  | EvSleep (seconds : Q)
  | EvRemoveLiquidity
  | EvCloseHedgePosition
  | EvInitializePosition
  | EvSendAlert (text : string)
  | EvGetPoolPosition.

(** ** The bot and its environment *)

(** [self]: the loaded configuration, the position record and the clients
    ([self.binance], [self.sui_client], [self.tg_bot]) with whatever stands
    behind them, of an arbitrary type [W]. *)
Record Bot (W : Type) : Type := mkBot {
  config : Config;
  current_position : option (gmap string pyval);
  services : W
}.
Arguments mkBot {W} _ _ _.
Arguments config {W} _.
Arguments current_position {W} _.
Arguments services {W} _.

(** Everything the class calls and does not define. *)
Class Environment (W : Type) : Type := {
  (* float(self.binance.fetch_ticker(symbol)['last']) *)
  binance_fetch_ticker_last : string -> W -> W * result Q;
  (* self.binance.create_market_sell_order(symbol=, amount=, params={'positionSide': side}) *)
  binance_create_market_sell_order : string -> Q -> string -> W -> W * result (gmap string pyval);
  (* self.binance.fetch_position(symbol) *)
  binance_fetch_position : string -> W -> W * result (gmap string pyval);
  (* txer.move_call(...) followed by txer.execute() *)
  txer_execute : move_call -> W -> W * result SuiRpcResult;
  (* self.tg_bot.send_message(chat_id=, text=, parse_mode=ParseMode.MARKDOWN) *)
  tg_bot_send_message : string -> string -> W -> W * result unit;
  (* format(value, spec): the text of a replacement field {value:spec} *)
  format_value : string -> pyval -> result string;
  (* methods of self without a definition in the class *)
  env_remove_liquidity : Bot W -> Bot W * result unit;
  env_close_hedge_position : Bot W -> Bot W * result unit;
  env_initialize_position : Bot W -> Bot W * result unit;
  env_send_alert : string -> Bot W -> Bot W * result unit;
  env_get_pool_position : Bot W -> Bot W * result (gmap string pyval)
}.

(** ** Computations: state, a log of outside calls, exceptions *)

Definition M (W A : Type) : Type := Bot W -> Bot W * list event * result A.

Definition ret {W A} (a : A) : M W A := fun s => (s, [], Ok a).

Definition raise {W A} (e : exn) : M W A := fun s => (s, [], Raise e).

Definition bind {W A B} (m : M W A) (k : A -> M W B) : M W B :=
  fun s =>
    match m s with
    | (s1, t1, Ok a) => let '(s2, t2, r) := k a s1 in (s2, t1 ++ t2, r)
    | (s1, t1, Raise e) => (s1, t1, Raise e)
    end.

Declare Scope py_scope.
Delimit Scope py_scope with py.
Notation "x <- m ;; k" := (bind m (fun x => k))
  (at level 100, m at next level, right associativity) : py_scope.
Notation "m ;; k" := (bind m (fun _ => k))
  (at level 100, right associativity) : py_scope.

(** [try: body except Exception as e: handler e]. *)
Definition try_except {W A} (body : M W A) (handler : exn -> M W A) : M W A :=
  fun s =>
    match body s with
    | (s1, t1, Ok a) => (s1, t1, Ok a)
    | (s1, t1, Raise e) => let '(s2, t2, r) := handler e s1 in (s2, t1 ++ t2, r)
    end.

(** A pure step that may raise. *)
Definition lift {W A} (r : result A) : M W A := fun s => (s, [], r).

(** Read [self.config]. *)
Definition get_config {W} : M W Config := fun s => (s, [], Ok (config s)).

(** A call to one of the clients. *)
Definition service {W A} (ev : event) (op : W -> W * result A) : M W A :=
  fun s =>
    let '(w, r) := op (services s) in
    (mkBot (config s) (current_position s) w, [ev], r).

(** A call to a method the environment supplies. *)
Definition method {W A} (ev : event) (op : Bot W -> Bot W * result A) : M W A :=
  fun s => let '(s1, r) := op s in (s1, [ev], r).

(** [time.sleep(seconds)]. *)
Definition sleep {W} (seconds : Q) : M W unit :=
  if Qle_bool 0 seconds
  then (fun s => (s, [EvSleep seconds], Ok tt))
  else raise (ValueError "sleep length must be non-negative").

(** ** The range expressions of [rebalance_position] (step 2) *)

Definition new_lower (current_price : Q) (cfg : Config) : Q :=
  (current_price * (1 - price_range cfg))%Q.

Definition new_upper (current_price : Q) (cfg : Config) : Q :=
  (current_price * (1 + price_range cfg))%Q.

(** ** The Move call of [add_liquidity] *)

Definition add_liquidity_call (cfg : Config)
    (sui_amount usdc_amount : Q) (lower_tick upper_tick : Z) : move_call :=
  let sui_scaled := py_int (sui_amount * pow10 (sui_decimals cfg)) in
  let usdc_scaled := py_int (usdc_amount * pow10 (usdc_decimals cfg)) in
  mkMoveCall
    (pool_address cfg +:+ "::pool::add_liquidity")
    [ ArgObject (pool_address cfg);
      ArgSplitCoins [sui_scaled];
      ArgSplitCoins [usdc_scaled];
      ArgU64 lower_tick;
      ArgU64 upper_tick;
      ArgPure 0 ]
    [ sui_type cfg; usdc_type cfg ].

(** The slippage argument of a pool call: the last one. *)
Definition slippage_argument (c : move_call) : option tx_arg :=
  last (arguments c).


(** The literal text of the report, between its replacement fields. *)
Definition report_head : string :=
"
📊 *持仓状态报告*
┌───────────────────┬───────────────┐
│ 当前SUI价格       │ $".

Definition report_range : string :=
"
├───────────────────┼───────────────┤
│ 流动性区间        │ $".

Definition report_range_sep : string :=
" - $".

Definition report_deviation : string :=
"
├───────────────────┼───────────────┤
│ 偏离区间边缘      │ ".

Definition report_hedge : string :=
"
├───────────────────┼───────────────┤
│ 币安空头数量      │ ".

Definition report_tail : string :=
" SUI
└───────────────────┴───────────────┘
        ".

(** ** The methods of [CetusHedgeBot] *)

Section Methods.
Context {W : Type} {E : Environment W}.
Local Open Scope py_scope.

Definition remove_liquidity : M W unit :=
  method EvRemoveLiquidity env_remove_liquidity.

Definition close_hedge_position : M W unit :=
  method EvCloseHedgePosition env_close_hedge_position.

Definition initialize_position : M W unit :=
  method EvInitializePosition env_initialize_position.

Definition send_alert (text : string) : M W unit :=
  method (EvSendAlert text) (env_send_alert text).

Definition get_pool_position : M W (gmap string pyval) :=
  method EvGetPoolPosition env_get_pool_position.

Definition get_sui_price : M W Q :=
  service (EvFetchTicker "SUI/USDC") (binance_fetch_ticker_last "SUI/USDC").

Definition calculate_swap_amounts : M W (Q * Q) :=
  current_price <- get_sui_price ;;
  cfg <- get_config ;;
  let total_usdc := base_amount cfg in
  sui_amount <- lift (truediv (total_usdc * (1 # 2)) current_price) ;;
  let usdc_amount := (total_usdc * (1 # 2))%Q in
  ret (sui_amount, usdc_amount).

Definition add_liquidity (sui_amount usdc_amount : Q) (lower_tick upper_tick : Z)
    : M W pyval :=
  cfg <- get_config ;;
  let call := add_liquidity_call cfg sui_amount usdc_amount lower_tick upper_tick in
  result <- service (EvExecute call) (txer_execute call) ;;
  match result with
  | RpcOk result_data => ret result_data
  | RpcFailed result_string => raise (Exception ("添加流动性失败: " +:+ result_string))
  end.

Definition execute_hedge (sui_amount : Q) : M W pyval :=
  try_except
    (order <- service (EvCreateMarketSellOrder "SUI/USDC" sui_amount "SHORT")
                      (binance_create_market_sell_order "SUI/USDC" sui_amount "SHORT") ;;
     lift (getitem order "id"))
    (fun e =>
       send_alert ("对冲订单失败: " +:+ exn_str e) ;;
       ret VNone).

Definition position_item (key : string) : M W pyval :=
  fun s =>
    match current_position s with
    | Some d => (s, [], getitem d key)
    | None => (s, [], Raise (TypeError "'NoneType' object is not subscriptable"))
    end.

Definition check_rebalance_condition : M W bool :=
  current_price <- get_sui_price ;;
  lower_bound <- position_item "lower_price" ;;
  upper_bound <- position_item "upper_price" ;;
  cfg <- get_config ;;
  lower_threshold <- lift (mul_num lower_bound (1 + rebalance_threshold cfg)) ;;
  upper_threshold <- lift (mul_num upper_bound (1 - rebalance_threshold cfg)) ;;
  ret (Qle_bool current_price lower_threshold || Qle_bool upper_threshold current_price).

Definition rebalance_position : M W unit :=
  (* 1 *)
  remove_liquidity ;;
  (* 2 *)
  current_price <- get_sui_price ;;
  cfg <- get_config ;;
  let lower := new_lower current_price cfg in
  let upper := new_upper current_price cfg in
  (* 3 *)
  close_hedge_position ;;
  (* 4 *)
  initialize_position.

Definition generate_report : M W string :=
  position <- get_pool_position ;;
  binance_pos <- service (EvFetchPosition "SUI/USDC") (binance_fetch_position "SUI/USDC") ;;
  price <- get_sui_price ;;
  price_text <- lift (format_value ".4f" (VNum price)) ;;
  lower <- lift (getitem position "lower") ;;
  lower_text <- lift (format_value ".4f" lower) ;;
  upper <- lift (getitem position "upper") ;;
  upper_text <- lift (format_value ".4f" upper) ;;
  deviation <- lift (getitem position "deviation") ;;
  magnitude <- lift (py_abs deviation) ;;
  deviation_text <- lift (format_value ".2%" magnitude) ;;
  contracts <- lift (getitem binance_pos "contracts") ;;
  contracts_text <- lift (format_value "" contracts) ;;
  ret (report_head +:+ price_text
       +:+ report_range +:+ lower_text +:+ report_range_sep +:+ upper_text
       +:+ report_deviation +:+ deviation_text
       +:+ report_hedge +:+ contracts_text +:+ report_tail).

(** One pass through the body of [while True]. *)
Definition main_loop_iteration : M W unit :=
  try_except
    (drifted <- check_rebalance_condition ;;
     (if drifted : bool then rebalance_position else ret tt) ;;
     report <- generate_report ;;
     cfg <- get_config ;;
     service (EvSendMessage (chat_id cfg) report)
             (tg_bot_send_message (chat_id cfg) report) ;;
     cfg <- get_config ;;
     sleep (check_interval cfg))
    (fun e =>
       send_alert ("系统错误: " +:+ exn_str e) ;;
       sleep 60).

Fixpoint main_loop_iterations (n : nat) : M W unit :=
  match n with
  | O => ret tt
  | S k => main_loop_iteration ;; main_loop_iterations k
  end.

(** [main_loop], cut after [n] passes of its endless loop. *)
Definition main_loop (n : nat) : M W unit :=
  initialize_position ;;
  main_loop_iterations n.

End Methods.

(** ** Notions used in the statements *)

(** The [status] entry of the position record, if there is one. *)
Definition position_status {W} (s : Bot W) : option pyval :=
  match current_position s with
  | Some d => d !! "status"
  | None => None
  end.

(** The bot with the clients in state [w]. *)
Definition with_services {W} (s : Bot W) (w : W) : Bot W :=
  mkBot (config s) (current_position s) w.

(** Step (1) or step (3) of [rebalance_position] raises [e] when started on
    [s], and leaves the bot as [s1]. *)
Definition teardown_fails {W} {E : Environment W} (s s1 : Bot W) (e : exn) : Prop :=
  env_remove_liquidity s = (s1, Raise e)
  \/ exists s' w price,
       env_remove_liquidity s = (s', Ok tt)
       /\ binance_fetch_ticker_last "SUI/USDC" (services s') = (w, Ok price)
       /\ env_close_hedge_position (with_services s' w) = (s1, Raise e).

(** The environment [E] with another price feed. *)
Definition with_ticker {W} (E : Environment W)
    (feed : string -> W -> W * result Q) : Environment W :=
  {| binance_fetch_ticker_last := feed;
     binance_create_market_sell_order := binance_create_market_sell_order;
     binance_fetch_position := binance_fetch_position;
     txer_execute := txer_execute;
     tg_bot_send_message := tg_bot_send_message;
     format_value := format_value;
     env_remove_liquidity := env_remove_liquidity;
     env_close_hedge_position := env_close_hedge_position;
     env_initialize_position := env_initialize_position;
     env_send_alert := env_send_alert;
     env_get_pool_position := env_get_pool_position |}.

(** Two replies of the price feed that differ at most in the price. *)
Definition same_up_to_price (r1 r2 : result Q) : Prop :=
  match r1, r2 with
  | Ok _, Ok _ => True
  | Raise e1, Raise e2 => e1 = e2
  | _, _ => False
  end.

(** ** A scripted environment, for concrete runs *)

Module Scenario.

(** The reply of every outside call; the clients have no state. *)
Record Script : Type := mkScript {
  ticker_last : result Q;
  order : result (gmap string pyval);
  rpc : result SuiRpcResult;
  removal : result unit;
  hedge_close : result unit;
  recreation : result unit;
  alert : result unit
}.

Definition scripted (sc : Script) : Environment unit :=
  {| binance_fetch_ticker_last := fun _ w => (w, ticker_last sc);
     binance_create_market_sell_order := fun _ _ _ w => (w, order sc);
     binance_fetch_position := fun _ w => (w, Ok {[ "contracts" := VNum 500 ]});
     txer_execute := fun _ w => (w, rpc sc);
     tg_bot_send_message := fun _ _ w => (w, Ok tt);
     format_value := fun _ _ => Ok "0";
     env_remove_liquidity := fun s => (s, removal sc);
     env_close_hedge_position := fun s => (s, hedge_close sc);
     env_initialize_position := fun s => (s, recreation sc);
     env_send_alert := fun _ s => (s, alert sc);
     env_get_pool_position := fun s =>
       (s, Ok {[ "lower" := VNum (95 # 100); "upper" := VNum (105 # 100);
                 "deviation" := VNum (1 # 100) ]}) |}.

(** price_range 0.05, rebalance_threshold 0.01, capital 1000; the file
    also carries a slippage setting. *)
Definition cfg : Config :=
  {| base_amount := 1000;
     price_range := 5 # 100;
     rebalance_threshold := 1 # 100;
     check_interval := 300;
     sui_decimals := 9;
     usdc_decimals := 6;
     sui_type := "0x2::sui::SUI";
     usdc_type := "0xusdc::usdc::USDC";
     pool_address := "0xpool";
     chat_id := "42";
     other_settings := {[ "slippage_tolerance" := 5 # 1000 ]} |}.

(** The range [0.95, 1.05] opened at price 1. *)
Definition position : gmap string pyval :=
  {[ "lower_price" := VNum (95 # 100); "upper_price" := VNum (105 # 100) ]}.

Definition bot : Bot unit := mkBot cfg (Some position) tt.

Definition timeout : exn := Exception "submission timeout".

(** Everything succeeds; the price is [p]. *)
Definition calm (p : Q) : Script :=
  {| ticker_last := Ok p;
     order := Ok {[ "id" := VStr "7" ]};
     rpc := Ok (RpcOk VNone);
     removal := Ok tt;
     hedge_close := Ok tt;
     recreation := Ok tt;
     alert := Ok tt |}.

(** [remove_liquidity] times out. *)
Definition removal_times_out (p : Q) : Script :=
  {| ticker_last := Ok p;
     order := Ok {[ "id" := VStr "7" ]};
     rpc := Ok (RpcOk VNone);
     removal := Raise timeout;
     hedge_close := Ok tt;
     recreation := Ok tt;
     alert := Ok tt |}.

(** [close_hedge_position] times out. *)
Definition close_times_out (p : Q) : Script :=
  {| ticker_last := Ok p;
     order := Ok {[ "id" := VStr "7" ]};
     rpc := Ok (RpcOk VNone);
     removal := Ok tt;
     hedge_close := Raise timeout;
     recreation := Ok tt;
     alert := Ok tt |}.

(** The venue rejects the order. *)
Definition order_rejected (p : Q) : Script :=
  {| ticker_last := Ok p;
     order := Raise (Exception "insufficient margin");
     rpc := Ok (RpcOk VNone);
     removal := Ok tt;
     hedge_close := Ok tt;
     recreation := Ok tt;
     alert := Ok tt |}.

(** A configuration with a range fraction of 1.5. *)
Definition wide_cfg : Config :=
  {| base_amount := 1000;
     price_range := 3 # 2;
     rebalance_threshold := 1 # 100;
     check_interval := 300;
     sui_decimals := 9;
     usdc_decimals := 6;
     sui_type := "0x2::sui::SUI";
     usdc_type := "0xusdc::usdc::USDC";
     pool_address := "0xpool";
     chat_id := "42";
     other_settings := ∅ |}.

Definition wide_bot : Bot unit := mkBot wide_cfg None tt.

(** Two feeds that differ only in the price they return. *)
Definition feed_at (p : Q) : string -> unit -> unit * result Q :=
  fun _ w => (w, Ok p).

End Scenario.

(** ** Further notions *)

(** The bot as [__init__] leaves it: the loaded configuration, the clients,
    and no position yet. *)
Definition new_bot {W} (cfg : Config) (w : W) : Bot W := mkBot cfg None w.

Definition map_result {A B} (f : A -> B) (r : result A) : result B :=
  match r with
  | Ok a => Ok (f a)
  | Raise e => Raise e
  end.

(** The environment [E] with another [get_pool_position]. *)
Definition with_pool_position {W} (E : Environment W)
    (pool : Bot W -> Bot W * result (gmap string pyval)) : Environment W :=
  {| binance_fetch_ticker_last := binance_fetch_ticker_last;
     binance_create_market_sell_order := binance_create_market_sell_order;
     binance_fetch_position := binance_fetch_position;
     txer_execute := txer_execute;
     tg_bot_send_message := tg_bot_send_message;
     format_value := format_value;
     env_remove_liquidity := env_remove_liquidity;
     env_close_hedge_position := env_close_hedge_position;
     env_initialize_position := env_initialize_position;
     env_send_alert := env_send_alert;
     env_get_pool_position := pool |}.

(** A pool position with the sign of its numeric ['deviation'] flipped. *)
Definition negate_deviation (d : gmap string pyval) : gmap string pyval :=
  match d !! "deviation" with
  | Some (VNum v) => <[ "deviation" := VNum (- v) ]> d
  | _ => d
  end.

(** [get_pool_position] of [E], reporting the opposite deviation. *)
Definition opposite_deviation {W} (E : Environment W)
    : Bot W -> Bot W * result (gmap string pyval) :=
  fun s => let '(s', r) := env_get_pool_position s in (s', map_result negate_deviation r).

Definition is_sleep (ev : event) : bool :=
  match ev with
  | EvSleep _ => true
  | _ => false
  end.

Definition is_alert (ev : event) : bool :=
  match ev with
  | EvSendAlert _ => true
  | _ => false
  end.

(** The calls that tear the two legs down or set them up again. *)
Definition touches_legs (ev : event) : bool :=
  match ev with
  | EvRemoveLiquidity | EvCloseHedgePosition | EvInitializePosition => true
  | _ => false
  end.

(** [send_alert] returns, whatever the text and the state. *)
Definition alerts_always_sent {W} (E : Environment W) : Prop :=
  forall (text : string) (s : Bot W), exists s', env_send_alert text s = (s', Ok tt).

(** More scripts: what the outside can answer when things go wrong. *)
Module Faults.
Import Scenario.

Definition outage : exn := mkExn "NetworkError" "binance GET ticker timed out".

(** The price feed is down. *)
Definition feed_down : Script :=
  {| ticker_last := Raise outage;
     order := Ok {[ "id" := VStr "7" ]};
     rpc := Ok (RpcOk VNone);
     removal := Ok tt;
     hedge_close := Ok tt;
     recreation := Ok tt;
     alert := Ok tt |}.

(** The venue accepts the order and answers without an id. *)
Definition order_without_id : Script :=
  {| ticker_last := Ok 1%Q;
     order := Ok {[ "status" := VStr "open" ]};
     rpc := Ok (RpcOk VNone);
     removal := Ok tt;
     hedge_close := Ok tt;
     recreation := Ok tt;
     alert := Ok tt |}.

(** The chain rejects the transaction. *)
Definition rpc_rejected : Script :=
  {| ticker_last := Ok 1%Q;
     order := Ok {[ "id" := VStr "7" ]};
     rpc := Ok (RpcFailed "InsufficientGas");
     removal := Ok tt;
     hedge_close := Ok tt;
     recreation := Ok tt;
     alert := Ok tt |}.

(** The first set-up of the position fails. *)
Definition setup_fails : Script :=
  {| ticker_last := Ok 1%Q;
     order := Ok {[ "id" := VStr "7" ]};
     rpc := Ok (RpcOk VNone);
     removal := Ok tt;
     hedge_close := Ok tt;
     recreation := Raise timeout;
     alert := Ok tt |}.

(** The alert channel is down as well as the feed. *)
Definition all_down : Script :=
  {| ticker_last := Raise outage;
     order := Raise outage;
     rpc := Raise outage;
     removal := Raise outage;
     hedge_close := Raise outage;
     recreation := Raise outage;
     alert := Raise outage |}.

(** A position record without its upper bound. *)
Definition half_position : gmap string pyval :=
  {[ "lower_price" := VNum (95 # 100) ]}.

(** A range whose thresholds cross: [0.99, 1.01] under a threshold of 0.01. *)
Definition narrow_position : gmap string pyval :=
  {[ "lower_price" := VNum (99 # 100); "upper_price" := VNum (101 # 100) ]}.

End Faults.

(** ** The parts of a pass of the loop *)

Section LoopParts.
Context {W : Type} {E : Environment W}.
Local Open Scope py_scope.

(** What follows the drift check inside [try]. *)
Definition after_check (drifted : bool) : M W unit :=
  (if drifted then rebalance_position else ret tt) ;;
  report <- generate_report ;;
  cfg <- get_config ;;
  service (EvSendMessage (chat_id cfg) report)
          (tg_bot_send_message (chat_id cfg) report) ;;
  cfg <- get_config ;;
  sleep (check_interval cfg).

(** The body of [try]. *)
Definition loop_body : M W unit :=
  drifted <- check_rebalance_condition ;;
  after_check drifted.

(** The body of [except Exception as e]. *)
Definition loop_handler (e : exn) : M W unit :=
  send_alert ("系统错误: " +:+ exn_str e) ;;
  sleep 60.

End LoopParts.

(** Neither a sleep nor an alert. *)
Definition silent (ev : event) : Prop :=
  is_sleep ev = false /\ is_alert ev = false.

(** How the code inside [try] can end: after calls that are all [good], it
    either raised, or slept for the configured interval and returned. *)
Definition pass_outcome {W} (good : event -> Prop)
    (s' : Bot W) (t : list event) (r : result unit) : Prop :=
  exists t0,
    Forall good t0
    /\ ((t = t0 /\ exists e, r = Raise e)
        \/ (t = t0 ++ [EvSleep (check_interval (config s'))] /\ r = Ok tt)).

(** ** Python's own numbers: binary64 floats and unbounded ints

    Where rounding decides the outcome (a comparison, a truncation) the
    arithmetic of the methods is modelled again on Python's numbers
    themselves: [float] is IEEE 754 binary64 with round-to-nearest-even, as
    the primitive floats here, and [int] is unbounded.  The price returned by
    [get_sui_price] is an argument; the calls are those of the methods
    above. *)

Set Warnings "-inexact-float".

Module Double.

Definition OverflowError (msg : string) : exn := mkExn "OverflowError" msg.

(** A Python number. *)
Inductive num : Type :=
  | Int (z : Z)
  | Float (f : float).

(** A value held by the position record. *)
Inductive value : Type :=
  | VNone
  | VNum (n : num)
  | VStr (s : string).

(** The numeric settings of [config.yaml], as YAML loads them:
    [strategy.base_amount], [strategy.price_range],
    [strategy.rebalance_threshold], each an int or a float, and the
    [decimals] of the two tokens, non-negative ints. *)
Record Numbers : Type := mkNumbers {
  base_amount : num;
  price_range : num;
  rebalance_threshold : num;
  sui_decimals : N;
  usdc_decimals : N
}.

Definition and_then {A B : Type} (r : result A) (k : A -> result B) : result B :=
  match r with
  | Ok a => k a
  | Raise e => Raise e
  end.

Declare Scope result_scope.
Delimit Scope result_scope with result.
Notation "x <- r ;; k" := (and_then r (fun x => k))
  (at level 100, r at next level, right associativity) : result_scope.
Local Open Scope result_scope.

(** [float(z)] for an int [z]: the nearest double, ties to even; an int
    beyond the doubles does not convert. *)
Definition to_float (z : Z) : result float :=
  let f := SF2Prim (binary_normalize prec emax z 0 false) in
  if PrimFloat.is_infinity f
  then Raise (OverflowError "int too large to convert to float")
  else Ok f.

(** The float operand of a mixed operation. *)
Definition as_float (n : num) : result float :=
  match n with
  | Int z => to_float z
  | Float f => Ok f
  end.

(** [a + b], [a - b], [a * b] on numbers. *)
Definition num_add (a b : num) : result num :=
  match a, b with
  | Int x, Int y => Ok (Int (x + y))
  | _, _ => f <- as_float a ;; g <- as_float b ;; Ok (Float (f + g))
  end.

Definition num_sub (a b : num) : result num :=
  match a, b with
  | Int x, Int y => Ok (Int (x - y))
  | _, _ => f <- as_float a ;; g <- as_float b ;; Ok (Float (f - g))
  end.

Definition num_mul (a b : num) : result num :=
  match a, b with
  | Int x, Int y => Ok (Int (x * y))
  | _, _ => f <- as_float a ;; g <- as_float b ;; Ok (Float (f * g))
  end.

(** [s * k] for a str [s] and an int [k]: [k] copies, none for [k <= 0]. *)
Definition repeat_str (s : string) (k : Z) : string :=
  Nat.iter (Z.to_nat k) (String.append s) "".

(** [v * n] for a value [v] of the position record and a number [n]. *)
Definition py_mul (v : value) (n : num) : result value :=
  match v with
  | VNum a => r <- num_mul a n ;; Ok (VNum r)
  | VStr s =>
      match n with
      | Int k => Ok (VStr (repeat_str s k))
      | Float _ => Raise (TypeError "can't multiply sequence by non-int of type 'float'")
      end
  | VNone =>
      match n with
      | Int _ => Raise (TypeError "unsupported operand type(s) for *: 'NoneType' and 'int'")
      | Float _ => Raise (TypeError "unsupported operand type(s) for *: 'NoneType' and 'float'")
      end
  end.

(** A float against an int, compared exactly; nothing for a NaN. *)
Definition compare_float_int (x : float) (z : Z) : option comparison :=
  match Prim2SF x with
  | S754_nan => None
  | S754_infinity s => Some (if s then Lt else Gt)
  | S754_zero _ => Some (0 ?= z)%Z
  | S754_finite s m e =>
      let v := cond_Zopp s (Z.pos m) in
      Some (if (0 <=? e)%Z then (v * 2 ^ e ?= z)%Z else (v ?= z * 2 ^ (- e))%Z)
  end.

(** [x <= n] and [x >= n] for a float [x]. *)
Definition float_le_num (x : float) (n : num) : bool :=
  match n with
  | Float g => (x <=? g)%float
  | Int z => match compare_float_int x z with Some (Lt | Eq) => true | _ => false end
  end.

Definition float_ge_num (x : float) (n : num) : bool :=
  match n with
  | Float g => (g <=? x)%float
  | Int z => match compare_float_int x z with Some (Gt | Eq) => true | _ => false end
  end.

Definition py_le (x : float) (v : value) : result bool :=
  match v with
  | VNum n => Ok (float_le_num x n)
  | VStr _ => Raise (TypeError "'<=' not supported between instances of 'float' and 'str'")
  | VNone => Raise (TypeError "'<=' not supported between instances of 'float' and 'NoneType'")
  end.

Definition py_ge (x : float) (v : value) : result bool :=
  match v with
  | VNum n => Ok (float_ge_num x n)
  | VStr _ => Raise (TypeError "'>=' not supported between instances of 'float' and 'str'")
  | VNone => Raise (TypeError "'>=' not supported between instances of 'float' and 'NoneType'")
  end.

(** [a / b] on floats. *)
Definition truediv (a b : float) : result float :=
  if PrimFloat.is_zero b then Raise ZeroDivisionError else Ok (a / b)%float.

(** The rational a finite double stands for. *)
Definition finite_value (s : bool) (m : positive) (e : Z) : Q :=
  (inject_Z (cond_Zopp s (Z.pos m)) * Qpower 2 e)%Q.

Definition float_value (f : float) : option Q :=
  match Prim2SF f with
  | S754_zero _ => Some 0%Q
  | S754_finite s m e => Some (finite_value s m e)
  | _ => None
  end.

(** [int(f)] for a float [f]: truncation toward zero. *)
Definition py_int_float (f : float) : result Z :=
  match Prim2SF f with
  | S754_nan => Raise (ValueError "cannot convert float NaN to integer")
  | S754_infinity _ => Raise (OverflowError "cannot convert float infinity to integer")
  | S754_zero _ => Ok 0%Z
  | S754_finite s m e => Ok (py_int (finite_value s m e))
  end.

(** [self.current_position[key]]. *)
Definition item (current_position : option (gmap string value)) (key : string)
    : result value :=
  match current_position with
  | None => Raise (TypeError "'NoneType' object is not subscriptable")
  | Some d =>
      match d !! key with
      | Some v => Ok v
      | None => Raise (KeyError key)
      end
  end.

(** [lower_bound * (1 + rebalance_threshold)] and
    [upper_bound * (1 - rebalance_threshold)]. *)
Definition lower_threshold_of (nums : Numbers) (lower_bound : value) : result value :=
  factor <- num_add (Int 1) (rebalance_threshold nums) ;;
  py_mul lower_bound factor.

Definition upper_threshold_of (nums : Numbers) (upper_bound : value) : result value :=
  factor <- num_sub (Int 1) (rebalance_threshold nums) ;;
  py_mul upper_bound factor.

(** [check_rebalance_condition], from the fetched price on. *)
Definition check_rebalance_condition (nums : Numbers)
    (current_position : option (gmap string value)) (current_price : float)
    : result bool :=
  lower_bound <- item current_position "lower_price" ;;
  upper_bound <- item current_position "upper_price" ;;
  lower_threshold <- lower_threshold_of nums lower_bound ;;
  upper_threshold <- upper_threshold_of nums upper_bound ;;
  below <- py_le current_price lower_threshold ;;
  if below : bool then Ok true else py_ge current_price upper_threshold.

(** [x * n] for a float [x]. *)
Definition float_mul_num (x : float) (n : num) : result float :=
  g <- as_float n ;; Ok (x * g)%float.

(** The range expressions of [rebalance_position]. *)
Definition new_lower (current_price : float) (nums : Numbers) : result float :=
  factor <- num_sub (Int 1) (price_range nums) ;;
  float_mul_num current_price factor.

Definition new_upper (current_price : float) (nums : Numbers) : result float :=
  factor <- num_add (Int 1) (price_range nums) ;;
  float_mul_num current_price factor.

(** [calculate_swap_amounts], from the fetched price on. *)
Definition calculate_swap_amounts (nums : Numbers) (current_price : float)
    : result (float * float) :=
  total_usdc <- as_float (base_amount nums) ;;
  sui_amount <- truediv (total_usdc * 0.5)%float current_price ;;
  let usdc_amount := (total_usdc * 0.5)%float in
  Ok (sui_amount, usdc_amount).

(** [int(n)] for a number [n]. *)
Definition py_int_num (n : num) : result Z :=
  match n with
  | Int z => Ok z
  | Float f => py_int_float f
  end.

(** [int(amount * 10**decimals)]. *)
Definition scale (amount : num) (decimals : N) : result Z :=
  product <- num_mul amount (Int (10 ^ Z.of_N decimals)) ;;
  py_int_num product.

(** The rational a number stands for; none for an infinity or a NaN. *)
Definition num_value (n : num) : option Q :=
  match n with
  | Int z => Some (inject_Z z)
  | Float f => float_value f
  end.


(** The Move call of [add_liquidity], when both conversions succeed. *)
Definition add_liquidity_call (cfg : Config) (nums : Numbers)
    (sui_amount usdc_amount : num) (lower_tick upper_tick : Z) : result move_call :=
  sui_scaled <- scale sui_amount (sui_decimals nums) ;;
  usdc_scaled <- scale usdc_amount (usdc_decimals nums) ;;
  Ok (mkMoveCall
        (pool_address cfg +:+ "::pool::add_liquidity")
        [ ArgObject (pool_address cfg);
          ArgSplitCoins [sui_scaled];
          ArgSplitCoins [usdc_scaled];
          ArgU64 lower_tick;
          ArgU64 upper_tick;
          ArgPure 0 ]
        [ sui_type cfg; usdc_type cfg ]).


(** price_range 0.05, rebalance_threshold 0.01, capital 1000 (an int), SUI
    with 9 decimals and USDC with 6. *)
Definition nums : Numbers :=
  {| base_amount := Int 1000;
     price_range := Float 0.05;
     rebalance_threshold := Float 0.01;
     sui_decimals := 9;
     usdc_decimals := 6 |}.

(** The same with a threshold of 0.1, and with a range fraction of 1e-17. *)
Definition nums_wide_threshold : Numbers :=
  {| base_amount := Int 1000;
     price_range := Float 0.05;
     rebalance_threshold := Float 0.1;
     sui_decimals := 9;
     usdc_decimals := 6 |}.


(** An int threshold of 0. *)
Definition nums_int_threshold : Numbers :=
  {| base_amount := Int 1000;
     price_range := Float 0.05;
     rebalance_threshold := Int 0;
     sui_decimals := 9;
     usdc_decimals := 6 |}.

(** The range [0.05, 1.0]. *)
Definition position : gmap string value :=
  {[ "lower_price" := VNum (Float 0.05); "upper_price" := VNum (Float 1.0) ]}.

(** A record whose upper bound is a str. *)
Definition position_str_upper : gmap string value :=
  {[ "lower_price" := VNum (Float 2.0); "upper_price" := VStr "abc" ]}.

End Double.

(** * Properties *)

Section Properties.
Context {W : Type} {E : Environment W}.
Local Open Scope Q_scope.

(** ** Single steps *)

Lemma get_sui_price_returns (s : Bot W) (w : W) (price : Q) :
  binance_fetch_ticker_last "SUI/USDC" (services s) = (w, Ok price) ->
  get_sui_price s = (with_services s w, [EvFetchTicker "SUI/USDC"], Ok price).
Proof.
  intros Hfeed. unfold get_sui_price, service. now rewrite Hfeed.
Qed.

Lemma get_sui_price_raises (s : Bot W) (w : W) (e : exn) :
  binance_fetch_ticker_last "SUI/USDC" (services s) = (w, Raise e) ->
  get_sui_price s = (with_services s w, [EvFetchTicker "SUI/USDC"], Raise e).
Proof.
  intros Hfeed. unfold get_sui_price, service. now rewrite Hfeed.
Qed.

Lemma position_item_found (s : Bot W) (d : gmap string pyval) (key : string) (v : pyval) :
  current_position s = Some d -> d !! key = Some v ->
  position_item key s = (s, [], Ok v).
Proof.
  intros Hpos Hkey. unfold position_item, getitem. now rewrite Hpos, Hkey.
Qed.

Lemma sleep_returns (s : Bot W) (seconds : Q) :
  0 <= seconds -> sleep seconds s = (s, [EvSleep seconds], Ok tt).
Proof.
  intros Hs. unfold sleep. apply Qle_bool_iff in Hs. now rewrite Hs.
Qed.

Lemma truediv_nonzero (a b : Q) : ~ b == 0 -> truediv a b = Ok (a / b).
Proof.
  intros Hb. unfold truediv. destruct (Qeq_bool b 0) eqn:Hz; [|reflexivity].
  apply Qeq_bool_iff in Hz. contradiction.
Qed.

Lemma truediv_zero (a b : Q) : b == 0 -> truediv a b = Raise ZeroDivisionError.
Proof.
  intros Hb. unfold truediv. apply Qeq_bool_iff in Hb. now rewrite Hb.
Qed.

(** ** The drift check *)

(** ** Range and amounts *)

(** C4. For a fetched price [price > 0], capital [base_amount > 0] and
    [price_range] in (0, 1): the range is
    [price * (1 - price_range), price * (1 + price_range)] and
    [calculate_swap_amounts] returns
    [((base_amount * 0.5) / price, base_amount * 0.5)]. *)
Theorem range_and_amounts_formulas (s : Bot W) (w : W) (price : Q) :
  0 < price ->
  0 < base_amount (config s) ->
  0 < price_range (config s) < 1 ->
  binance_fetch_ticker_last "SUI/USDC" (services s) = (w, Ok price) ->
  new_lower price (config s) = price * (1 - price_range (config s))
  /\ new_upper price (config s) = price * (1 + price_range (config s))
  /\ calculate_swap_amounts s
     = (with_services s w, [EvFetchTicker "SUI/USDC"],
        Ok ((base_amount (config s) * (1 # 2)) / price,
            base_amount (config s) * (1 # 2))).
Proof.
  intros Hprice _ _ Hfeed. split; [reflexivity|]. split; [reflexivity|].
  unfold calculate_swap_amounts, bind.
  rewrite (get_sui_price_returns s w price Hfeed). cbn.
  rewrite truediv_nonzero; [reflexivity|].
  intros Hz. rewrite Hz in Hprice. discriminate.
Qed.


(** C5 (as the code has it). [calculate_swap_amounts] validates nothing: a
    fetched price of zero makes the division raise [ZeroDivisionError], and
    for every other price, negative ones too, and every capital it returns
    [((base_amount * 0.5) / price, base_amount * 0.5)]; [price_range] is not
    consulted. *)
Theorem calculate_swap_amounts_unvalidated (s : Bot W) (w : W) (price : Q) :
  binance_fetch_ticker_last "SUI/USDC" (services s) = (w, Ok price) ->
  (price == 0 ->
     calculate_swap_amounts s
     = (with_services s w, [EvFetchTicker "SUI/USDC"], Raise ZeroDivisionError))
  /\ (~ price == 0 ->
     calculate_swap_amounts s
     = (with_services s w, [EvFetchTicker "SUI/USDC"],
        Ok ((base_amount (config s) * (1 # 2)) / price,
            base_amount (config s) * (1 # 2)))).
Proof.
  intros Hfeed. split; intros Hz.
  - unfold calculate_swap_amounts, bind.
    rewrite (get_sui_price_returns s w price Hfeed). cbn.
    now rewrite truediv_zero.
  - unfold calculate_swap_amounts, bind.
    rewrite (get_sui_price_returns s w price Hfeed). cbn.
    now rewrite truediv_nonzero.
Qed.

(** ** Deposits *)




(** [add_liquidity] submits one call, the one of [add_liquidity_call]. *)
Lemma add_liquidity_submits
    (s : Bot W) (sui_amount usdc_amount : Q) (lower_tick upper_tick : Z) :
  exists s' r,
    add_liquidity sui_amount usdc_amount lower_tick upper_tick s
    = (s', [EvExecute (add_liquidity_call (config s) sui_amount usdc_amount
                                          lower_tick upper_tick)], r).
Proof.
  unfold add_liquidity, bind, get_config, service. cbn.
  destruct (txer_execute _ _) as [w [[data|msg]|e]]; cbn; eauto.
Qed.

(** C6 (as the code has it). Every deposit submitted by [add_liquidity]
    passes the constant 0 as the slippage argument of the pool call, whatever
    the configuration holds and whatever the caller passes. *)
Theorem add_liquidity_slippage_is_zero
    (s : Bot W) (sui_amount usdc_amount : Q) (lower_tick upper_tick : Z) :
  exists s' r call,
    add_liquidity sui_amount usdc_amount lower_tick upper_tick s
    = (s', [EvExecute call], r)
    /\ slippage_argument call = Some (ArgPure 0).
Proof.
  destruct (add_liquidity_submits s sui_amount usdc_amount lower_tick upper_tick)
    as (s' & r & Hrun).
  exists s', r. eexists. split; [exact Hrun|reflexivity].
Qed.

(** ** The hedge order *)

(** A placed order returns its id. *)
Lemma execute_hedge_returns_order_id
    (s : Bot W) (sui_amount : Q) (w : W) (order : gmap string pyval) (id : pyval) :
  binance_create_market_sell_order "SUI/USDC" sui_amount "SHORT" (services s)
    = (w, Ok order) ->
  order !! "id" = Some id ->
  execute_hedge sui_amount s
  = (with_services s w, [EvCreateMarketSellOrder "SUI/USDC" sui_amount "SHORT"], Ok id).
Proof.
  intros Hplace Hid.
  unfold execute_hedge, try_except, bind, service, lift, getitem.
  now rewrite Hplace, Hid.
Qed.

(** After a failed placement the outcome is the one of the alert. *)
Lemma execute_hedge_failed_placement
    (s : Bot W) (sui_amount : Q) (w : W) (e : exn) :
  binance_create_market_sell_order "SUI/USDC" sui_amount "SHORT" (services s)
    = (w, Raise e) ->
  let text := "对冲订单失败: " +:+ exn_str e in
  execute_hedge sui_amount s
  = let '(s', r) := env_send_alert text (with_services s w) in
    (s', [EvCreateMarketSellOrder "SUI/USDC" sui_amount "SHORT"; EvSendAlert text],
     match r with Ok _ => Ok VNone | Raise e' => Raise e' end).
Proof.
  intros Hplace text.
  unfold execute_hedge, try_except, bind, service, send_alert, method, ret.
  rewrite Hplace. fold text. unfold with_services.
  destruct (env_send_alert text _) as [s' [[]|e']]; reflexivity.
Qed.

(** C9 (as the code has it). Whatever the quantity, when the order
    placement raises, [execute_hedge] catches the exception and calls
    [send_alert] with its text.  What the caller gets is the outcome of that
    alert: [None] when [send_alert] returns, and the exception of
    [send_alert] when it raises. *)
Theorem execute_hedge_order_failure_outcome
    (s : Bot W) (sui_amount : Q) (w : W) (e : exn) :
  binance_create_market_sell_order "SUI/USDC" sui_amount "SHORT" (services s)
    = (w, Raise e) ->
  let text := "对冲订单失败: " +:+ exn_str e in
  let calls := [EvCreateMarketSellOrder "SUI/USDC" sui_amount "SHORT"; EvSendAlert text] in
  (forall s', env_send_alert text (with_services s w) = (s', Ok tt) ->
     execute_hedge sui_amount s = (s', calls, Ok VNone))
  /\ (forall s' e', env_send_alert text (with_services s w) = (s', Raise e') ->
     execute_hedge sui_amount s = (s', calls, Raise e')).
Proof.
  intros Hplace text calls.
  pose proof (execute_hedge_failed_placement s sui_amount w e Hplace) as Hrun.
  cbv zeta in Hrun. fold text in Hrun. fold calls in Hrun.
  split.
  - intros s' Halert. now rewrite Hrun, Halert.
  - intros s' e' Halert. now rewrite Hrun, Halert.
Qed.

(** ** The rebalance sequence *)

(** The four outside calls of a complete rebalance, in order. *)
Lemma rebalance_position_removal_raises (s s1 : Bot W) (e : exn) :
  env_remove_liquidity s = (s1, Raise e) ->
  rebalance_position s = (s1, [EvRemoveLiquidity], Raise e).
Proof.
  intros H1. unfold rebalance_position, bind, remove_liquidity, method.
  now rewrite H1.
Qed.

Lemma rebalance_position_fetch_raises (s s1 : Bot W) (w : W) (e : exn) :
  env_remove_liquidity s = (s1, Ok tt) ->
  binance_fetch_ticker_last "SUI/USDC" (services s1) = (w, Raise e) ->
  rebalance_position s
  = (with_services s1 w, [EvRemoveLiquidity; EvFetchTicker "SUI/USDC"], Raise e).
Proof.
  intros H1 H2. unfold rebalance_position, bind, remove_liquidity, method.
  rewrite H1. now rewrite (get_sui_price_raises s1 w e H2).
Qed.

Lemma rebalance_position_close_raises (s s1 s3 : Bot W) (w : W) (price : Q) (e : exn) :
  env_remove_liquidity s = (s1, Ok tt) ->
  binance_fetch_ticker_last "SUI/USDC" (services s1) = (w, Ok price) ->
  env_close_hedge_position (with_services s1 w) = (s3, Raise e) ->
  rebalance_position s
  = (s3, [EvRemoveLiquidity; EvFetchTicker "SUI/USDC"; EvCloseHedgePosition], Raise e).
Proof.
  intros H1 H2 H3.
  unfold rebalance_position, bind, remove_liquidity, close_hedge_position, method.
  rewrite H1, (get_sui_price_returns s1 w price H2). cbn.
  now rewrite H3.
Qed.

Lemma rebalance_position_recreates
    (s s1 s3 s4 : Bot W) (w : W) (price : Q) (r : result unit) :
  env_remove_liquidity s = (s1, Ok tt) ->
  binance_fetch_ticker_last "SUI/USDC" (services s1) = (w, Ok price) ->
  env_close_hedge_position (with_services s1 w) = (s3, Ok tt) ->
  env_initialize_position s3 = (s4, r) ->
  rebalance_position s
  = (s4, [EvRemoveLiquidity; EvFetchTicker "SUI/USDC"; EvCloseHedgePosition;
          EvInitializePosition], r).
Proof.
  intros H1 H2 H3 H4.
  unfold rebalance_position, bind, remove_liquidity, close_hedge_position,
    initialize_position, method.
  rewrite H1, (get_sui_price_returns s1 w price H2). cbn.
  rewrite H3. cbn. now rewrite H4.
Qed.

(** Every run of [rebalance_position] is one of the four above. *)
Lemma rebalance_position_cases (s : Bot W) :
  (exists s1 e,
     env_remove_liquidity s = (s1, Raise e)
     /\ rebalance_position s = (s1, [EvRemoveLiquidity], Raise e))
  \/ (exists s1 w e,
     rebalance_position s
     = (with_services s1 w, [EvRemoveLiquidity; EvFetchTicker "SUI/USDC"], Raise e))
  \/ (exists s3 e,
     rebalance_position s
     = (s3, [EvRemoveLiquidity; EvFetchTicker "SUI/USDC"; EvCloseHedgePosition],
        Raise e))
  \/ (exists s4 r,
     rebalance_position s
     = (s4, [EvRemoveLiquidity; EvFetchTicker "SUI/USDC"; EvCloseHedgePosition;
             EvInitializePosition], r)).
Proof.
  destruct (env_remove_liquidity s) as [s1 [[]|e]] eqn:H1.
  2: { left. exists s1, e. split; [reflexivity|].
       now apply rebalance_position_removal_raises. }
  destruct (binance_fetch_ticker_last "SUI/USDC" (services s1)) as [w [price|e]] eqn:H2.
  2: { right; left. exists s1, w, e. now apply rebalance_position_fetch_raises. }
  destruct (env_close_hedge_position (with_services s1 w)) as [s3 [[]|e]] eqn:H3.
  2: { right; right; left. exists s3, e.
       now apply (rebalance_position_close_raises s s1 s3 w price e). }
  destruct (env_initialize_position s3) as [s4 r] eqn:H4.
  right; right; right. exists s4, r.
  now apply (rebalance_position_recreates s s1 s3 s4 w price r).
Qed.

(** C3. A run of [rebalance_position] that succeeds made exactly these calls,
    in this order: [remove_liquidity], the price fetch of the recomputation,
    [close_hedge_position], [initialize_position]; and the calls of any run,
    successful or not, are an initial part of that sequence. *)
Theorem rebalance_position_step_order (s s' : Bot W) (t : list event) (r : result unit) :
  rebalance_position s = (s', t, r) ->
  let steps := [EvRemoveLiquidity; EvFetchTicker "SUI/USDC"; EvCloseHedgePosition;
                EvInitializePosition] in
  (t `prefix_of` steps)
  /\ (r = Ok tt -> t = steps).
Proof.
  intros Hrun steps.
  destruct (rebalance_position_cases s)
    as [(s1 & e & _ & H) | [(s1 & w & e & H) | [(s3 & e & H) | (s4 & r4 & H)]]];
    rewrite H in Hrun; injection Hrun as <- <- <-.
  - split; [|discriminate]. now exists (tail steps).
  - split; [|discriminate]. now exists (tail (tail steps)).
  - split; [|discriminate]. now exists [EvInitializePosition].
  - split; [|reflexivity]. now exists [].
Qed.

(** C2 (as the code has it). When step (1) [remove_liquidity] or step (3)
    [close_hedge_position] raises, [rebalance_position] stops there and
    raises the same exception, the bot being as the failing step left it;
    [initialize_position] is not called; and the loop that started the
    rebalance calls [send_alert] with the text of the exception. *)
Theorem failed_teardown_aborts_rebalance (s s1 : Bot W) (e : exn) :
  teardown_fails s s1 e ->
  exists t,
    rebalance_position s = (s1, t, Raise e)
    /\ (EvInitializePosition ∉ t)
    /\ forall (s0 : Bot W) (t0 : list event),
         check_rebalance_condition s0 = (s, t0, Ok true) ->
         let text := "系统错误: " +:+ exn_str e in
         main_loop_iteration s0
         = let '(s2, r) := env_send_alert text s1 in
           (s2,
            t0 ++ t ++ EvSendAlert text
               :: match r with Ok _ => [EvSleep 60] | Raise _ => [] end,
            r).
Proof.
  intros Hfail.
  assert (Hrun : exists t, rebalance_position s = (s1, t, Raise e)
                           /\ EvInitializePosition ∉ t).
  { destruct Hfail as [H1 | (s' & w & price & H1 & H2 & H3)].
    - eexists. split; [now apply rebalance_position_removal_raises|].
      rewrite !elem_of_cons, elem_of_nil. intros [?|?]; [discriminate|done].
    - eexists. split; [now apply (rebalance_position_close_raises s s' s1 w price e)|].
      rewrite !elem_of_cons, elem_of_nil. intros [?|[?|[?|?]]]; try discriminate; done. }
  destruct Hrun as (t & Hrun & Hnot).
  exists t. split; [exact Hrun|]. split; [exact Hnot|].
  intros s0 t0 Hcheck text.
  unfold main_loop_iteration, try_except, bind.
  rewrite Hcheck, Hrun. unfold send_alert, method. fold text.
  destruct (env_send_alert text s1) as [s2 [[]|e']]; cbn;
    [rewrite sleep_returns by discriminate|]; now rewrite <- app_assoc.
Qed.

End Properties.

(** C10. The price fetched in step 2 of [rebalance_position], and with it
    [new_lower] and [new_upper], reaches no later step: under two price feeds
    that act alike on the clients and differ only in the prices they return,
    [rebalance_position] ends in the same bot, with the same calls and the
    same result; [initialize_position] is called without arguments. *)
Theorem rebalance_position_ignores_computed_range
    {W : Type} (E : Environment W) (feed feed' : string -> W -> W * result Q) :
  (forall symbol w, fst (feed symbol w) = fst (feed' symbol w)) ->
  (forall symbol w, same_up_to_price (snd (feed symbol w)) (snd (feed' symbol w))) ->
  forall s : Bot W,
    rebalance_position (E := with_ticker E feed) s
    = rebalance_position (E := with_ticker E feed') s.
Proof.
  intros Hworld Hreply s.
  unfold rebalance_position, bind, remove_liquidity, close_hedge_position,
    initialize_position, get_sui_price, get_config, method, service. cbn.
  destruct (env_remove_liquidity s) as [s1 [[]|e]]; [|reflexivity].
  specialize (Hworld "SUI/USDC" (services s1)).
  specialize (Hreply "SUI/USDC" (services s1)).
  destruct (feed "SUI/USDC" (services s1)) as [w r].
  destruct (feed' "SUI/USDC" (services s1)) as [w' r'].
  cbn in Hworld, Hreply. subst w'.
  destruct r as [price|e], r' as [price'|e']; cbn in Hreply; try contradiction.
  - reflexivity.
  - now subst e'.
Qed.

(** * Concrete runs *)

Import Scenario.

(** Price 1, capital 1000, range fraction 0.05: the range is [0.95, 1.05]
    and each leg gets 500. *)
Example range_at_price_one :
  (new_lower 1 cfg == 95 # 100)%Q /\ (new_upper 1 cfg == 105 # 100)%Q
  /\ exists sui_amount usdc_amount,
       calculate_swap_amounts (E := scripted (calm 1)) bot
         = (bot, [EvFetchTicker "SUI/USDC"], Ok (sui_amount, usdc_amount))
       /\ (sui_amount == 500)%Q /\ (usdc_amount == 500)%Q.
Proof.
  split; [reflexivity|]. split; [reflexivity|].
  eexists. eexists. split; [reflexivity|]. split; reflexivity.
Qed.

(** [int(-2.5)] is [-2], [int(2.5)] is [2]. *)
Example py_int_truncates : py_int (-5 # 2) = (-2)%Z /\ py_int (5 # 2) = 2%Z.
Proof.
  split; reflexivity.
Qed.

Lemma range_and_amounts_formulas_witness :
  new_lower 1 cfg = (1 * (1 - (5 # 100)))%Q
  /\ new_upper 1 cfg = (1 * (1 + (5 # 100)))%Q
  /\ calculate_swap_amounts (E := scripted (calm 1)) bot
     = (bot, [EvFetchTicker "SUI/USDC"], Ok ((1000 * (1 # 2)) / 1, 1000 * (1 # 2))%Q).
Proof.
  apply (range_and_amounts_formulas (E := scripted (calm 1)) bot tt 1).
  - reflexivity.
  - reflexivity.
  - split; reflexivity.
  - reflexivity.
Defined.


(** At a price of -2 with a range fraction of 1.5 the computation returns
    amounts, and the range expressions evaluate; at a price of 0 it raises
    [ZeroDivisionError]. *)
Lemma invalid_inputs_are_not_rejected :
  (-2 <= 0)%Q
  /\ ~ (0 < price_range wide_cfg < 1)%Q
  /\ calculate_swap_amounts (E := scripted (calm (-2))) wide_bot
     = (wide_bot, [EvFetchTicker "SUI/USDC"], Ok ((1000 * (1 # 2)) / -2, 1000 * (1 # 2))%Q)
  /\ (new_lower (-2) wide_cfg == 1)%Q
  /\ (new_upper (-2) wide_cfg == -5)%Q
  /\ calculate_swap_amounts (E := scripted (calm 0)) wide_bot
     = (wide_bot, [EvFetchTicker "SUI/USDC"], Raise ZeroDivisionError)
  /\ exn_type ZeroDivisionError <> "InvalidInput".
Proof.
  split; [discriminate|]. split; [intros [_ H]; discriminate H|].
  split; [reflexivity|]. split; [reflexivity|]. split; [reflexivity|].
  split; [reflexivity|]. discriminate.
Qed.

Lemma calculate_swap_amounts_unvalidated_witness :
  calculate_swap_amounts (E := scripted (calm (-2))) wide_bot
  = (wide_bot, [EvFetchTicker "SUI/USDC"], Ok ((1000 * (1 # 2)) / -2, 1000 * (1 # 2))%Q).
Proof.
  apply (calculate_swap_amounts_unvalidated (E := scripted (calm (-2))) wide_bot tt (-2)).
  - reflexivity.
  - discriminate.
Defined.

(** The configuration sets a slippage tolerance of 0.005; the deposit is
    submitted with 0. *)
Lemma configured_slippage_is_not_used :
  other_settings cfg !! "slippage_tolerance" = Some (5 # 1000)
  /\ (exists call,
        add_liquidity (E := scripted (calm 1)) 500 500 10 20 bot
          = (bot, [EvExecute call], Ok VNone)
        /\ slippage_argument call = Some (ArgPure 0)
        /\ slippage_argument call <> Some (ArgPure (5 # 1000)))
  /\ ~ (0 == 5 # 1000)%Q.
Proof.
  split; [reflexivity|]. split; [|discriminate].
  eexists. split; [reflexivity|]. split; [reflexivity|]. discriminate.
Qed.

Lemma execute_hedge_order_failure_outcome_witness :
  execute_hedge (E := scripted (order_rejected 1)) 500 bot
  = (bot, [EvCreateMarketSellOrder "SUI/USDC" 500 "SHORT";
           EvSendAlert "对冲订单失败: insufficient margin"],
     Ok VNone).
Proof.
  destruct (execute_hedge_order_failure_outcome (E := scripted (order_rejected 1))
              bot 500 tt (Exception "insufficient margin") eq_refl) as [Hsent _].
  apply Hsent. reflexivity.
Defined.

(** The venue rejects the order and the alert cannot be sent either: the
    caller of [execute_hedge] gets an exception, not [None]. *)
Lemma failed_alert_reaches_the_caller :
  binance_create_market_sell_order (Environment := scripted Faults.all_down)
    "SUI/USDC" 500 "SHORT" (services bot) = (tt, Raise Faults.outage)
  /\ execute_hedge (E := scripted Faults.all_down) 500 bot
     = (bot, [EvCreateMarketSellOrder "SUI/USDC" 500 "SHORT";
              EvSendAlert "对冲订单失败: binance GET ticker timed out"],
        Raise Faults.outage)
  /\ Raise Faults.outage <> Ok VNone.
Proof.
  split; [reflexivity|]. split; [reflexivity|]. discriminate.
Qed.

Lemma rebalance_position_step_order_witness :
  let steps := [EvRemoveLiquidity; EvFetchTicker "SUI/USDC"; EvCloseHedgePosition;
                EvInitializePosition] in
  rebalance_position (E := scripted (calm 1)) bot = (bot, steps, Ok tt)
  /\ (steps `prefix_of` steps)
  /\ (Ok tt = Ok tt -> steps = steps).
Proof.
  cbv zeta. split; [reflexivity|].
  apply (rebalance_position_step_order (E := scripted (calm 1)) bot bot _ (Ok tt)).
  reflexivity.
Defined.

(** [remove_liquidity] times out while the price, 1.045, is over the upper
    threshold: the rebalance stops, the alert goes out, and the position
    record carries no [Faulted] status, neither after [rebalance_position]
    nor after the pass of the loop. *)
Lemma failed_removal_leaves_no_faulted_status :
  let E := scripted (removal_times_out (1045 # 1000)) in
  teardown_fails (E := E) bot bot timeout
  /\ check_rebalance_condition (E := E) bot = (bot, [EvFetchTicker "SUI/USDC"], Ok true)
  /\ rebalance_position (E := E) bot = (bot, [EvRemoveLiquidity], Raise timeout)
  /\ main_loop_iteration (E := E) bot
     = (bot, [EvFetchTicker "SUI/USDC"; EvRemoveLiquidity;
              EvSendAlert "系统错误: submission timeout"; EvSleep 60], Ok tt)
  /\ position_status bot <> Some (VStr "Faulted").
Proof.
  cbv zeta. split; [left; reflexivity|]. split; [reflexivity|].
  split; [reflexivity|]. split; [reflexivity|]. discriminate.
Qed.

(** With no status to stop it, the next pass of the loop starts the
    rebalance again. *)
Example failed_rebalance_is_retried :
  let '(_, t, r) := main_loop_iterations (E := scripted (removal_times_out (1045 # 1000))) 2 bot in
  t = [EvFetchTicker "SUI/USDC"; EvRemoveLiquidity;
       EvSendAlert "系统错误: submission timeout"; EvSleep 60;
       EvFetchTicker "SUI/USDC"; EvRemoveLiquidity;
       EvSendAlert "系统错误: submission timeout"; EvSleep 60]
  /\ r = Ok tt.
Proof.
  split; reflexivity.
Qed.

Lemma failed_teardown_aborts_rebalance_witness :
  let E := scripted (close_times_out (1045 # 1000)) in
  teardown_fails (E := E) bot bot timeout
  /\ exists t,
       rebalance_position (E := E) bot = (bot, t, Raise timeout)
       /\ EvInitializePosition ∉ t.
Proof.
  cbv zeta.
  assert (Hfail : teardown_fails (E := scripted (close_times_out (1045 # 1000)))
                    bot bot timeout).
  { right. exists bot, tt, (1045 # 1000). repeat split; reflexivity. }
  split; [exact Hfail|].
  destruct (failed_teardown_aborts_rebalance
              (E := scripted (close_times_out (1045 # 1000))) bot bot timeout Hfail)
    as (t & Hrun & Hnot & _).
  exists t. split; assumption.
Defined.

Lemma rebalance_position_ignores_computed_range_witness :
  rebalance_position (E := with_ticker (scripted (calm 1)) (feed_at 1)) bot
  = rebalance_position (E := with_ticker (scripted (calm 1)) (feed_at 2)) bot.
Proof.
  apply (rebalance_position_ignores_computed_range (scripted (calm 1))
           (feed_at 1) (feed_at 2)).
  - intros symbol w. reflexivity.
  - intros symbol w. exact I.
Defined.

(** * Further properties *)

Section Further.
Context {W : Type} {E : Environment W}.
Local Open Scope Q_scope.

(** ** The drift check, on every input *)

(** What [check_rebalance_condition] does, case by case. *)
Lemma check_rebalance_condition_run (s : Bot W) :
  check_rebalance_condition s
  = let '(w, reply) := binance_fetch_ticker_last "SUI/USDC" (services s) in
    (with_services s w, [EvFetchTicker "SUI/USDC"],
     match reply with
     | Raise e => Raise e
     | Ok price =>
       match current_position s with
       | None => Raise (TypeError "'NoneType' object is not subscriptable")
       | Some d =>
         match getitem d "lower_price" with
         | Raise e => Raise e
         | Ok lower_bound =>
           match getitem d "upper_price" with
           | Raise e => Raise e
           | Ok upper_bound =>
             match mul_num lower_bound (1 + rebalance_threshold (config s)) with
             | Raise e => Raise e
             | Ok lower_threshold =>
               match mul_num upper_bound (1 - rebalance_threshold (config s)) with
               | Raise e => Raise e
               | Ok upper_threshold =>
                 Ok (Qle_bool price lower_threshold
                     || Qle_bool upper_threshold price)%bool
               end
             end
           end
         end
       end
     end).
Proof.
  unfold check_rebalance_condition, bind, get_sui_price, service, position_item,
    get_config, lift, ret, with_services.
  destruct (binance_fetch_ticker_last "SUI/USDC" (services s)) as [w [price|e]];
    [|reflexivity].
  cbn. destruct (current_position s) as [d|]; [|reflexivity].
  cbn. destruct (getitem d "lower_price") as [lower_bound|e]; [|reflexivity].
  cbn. destruct (getitem d "upper_price") as [upper_bound|e]; [|reflexivity].
  cbn. destruct (mul_num lower_bound _) as [lower_threshold|e]; [|reflexivity].
  cbn. destruct (mul_num upper_bound _) as [upper_threshold|e]; reflexivity.
Qed.

(** The value returned on a well-formed record. *)
Lemma check_rebalance_condition_value
    (s : Bot W) (d : gmap string pyval) (lower_price upper_price price : Q) (w : W) :
  current_position s = Some d ->
  d !! "lower_price" = Some (VNum lower_price) ->
  d !! "upper_price" = Some (VNum upper_price) ->
  binance_fetch_ticker_last "SUI/USDC" (services s) = (w, Ok price) ->
  check_rebalance_condition s
  = (with_services s w, [EvFetchTicker "SUI/USDC"],
     Ok (Qle_bool price (lower_price * (1 + rebalance_threshold (config s)))
         || Qle_bool (upper_price * (1 - rebalance_threshold (config s))) price)%bool).
Proof.
  intros Hpos Hlo Hhi Hfeed.
  rewrite check_rebalance_condition_run, Hfeed, Hpos.
  unfold getitem. now rewrite Hlo, Hhi.
Qed.

(** X1. Whatever the outcome, [check_rebalance_condition] makes one outside
    call, the price fetch, and leaves the configuration and the position
    record as they were. *)
Theorem check_rebalance_condition_only_fetches
    (s s' : Bot W) (t : list event) (r : result bool) :
  check_rebalance_condition s = (s', t, r) ->
  t = [EvFetchTicker "SUI/USDC"]
  /\ config s' = config s
  /\ current_position s' = current_position s.
Proof.
  rewrite check_rebalance_condition_run.
  destruct (binance_fetch_ticker_last "SUI/USDC" (services s)) as [w reply].
  intros [= <- <- _]. repeat split.
Qed.

(** X2. With no position recorded, as after [__init__], the check fetches the
    price and then raises [TypeError]: it gives no answer. *)
Theorem check_rebalance_condition_without_position (s : Bot W) (w : W) (price : Q) :
  current_position s = None ->
  binance_fetch_ticker_last "SUI/USDC" (services s) = (w, Ok price) ->
  check_rebalance_condition s
  = (with_services s w, [EvFetchTicker "SUI/USDC"],
     Raise (TypeError "'NoneType' object is not subscriptable")).
Proof.
  intros Hpos Hfeed. now rewrite check_rebalance_condition_run, Hfeed, Hpos.
Qed.

(** X3. A position record lacking ['lower_price'] makes the check raise
    [KeyError] for that key; one holding it and lacking ['upper_price'] raises
    [KeyError] for the upper key, before any arithmetic on the lower bound. *)
Theorem check_rebalance_condition_missing_bound
    (s : Bot W) (d : gmap string pyval) (w : W) (price : Q) :
  current_position s = Some d ->
  binance_fetch_ticker_last "SUI/USDC" (services s) = (w, Ok price) ->
  (d !! "lower_price" = None ->
     check_rebalance_condition s
     = (with_services s w, [EvFetchTicker "SUI/USDC"], Raise (KeyError "lower_price")))
  /\ (forall v, d !! "lower_price" = Some v -> d !! "upper_price" = None ->
     check_rebalance_condition s
     = (with_services s w, [EvFetchTicker "SUI/USDC"], Raise (KeyError "upper_price"))).
Proof.
  intros Hpos Hfeed. split.
  - intros Hlo. rewrite check_rebalance_condition_run, Hfeed, Hpos.
    unfold getitem. now rewrite Hlo.
  - intros v Hlo Hhi. rewrite check_rebalance_condition_run, Hfeed, Hpos.
    unfold getitem. now rewrite Hlo, Hhi.
Qed.

(** X6. With a non-negative threshold and non-negative bounds, every price
    at or outside a bound of the range makes the check return [True]. *)
Theorem price_outside_range_drifts
    (s : Bot W) (d : gmap string pyval) (lower_price upper_price price : Q) (w : W) :
  current_position s = Some d ->
  d !! "lower_price" = Some (VNum lower_price) ->
  d !! "upper_price" = Some (VNum upper_price) ->
  binance_fetch_ticker_last "SUI/USDC" (services s) = (w, Ok price) ->
  0 <= rebalance_threshold (config s) ->
  0 <= lower_price ->
  0 <= upper_price ->
  price <= lower_price \/ upper_price <= price ->
  check_rebalance_condition s = (with_services s w, [EvFetchTicker "SUI/USDC"], Ok true).
Proof.
  intros Hpos Hlo Hhi Hfeed Hthr Hl Hu Hout.
  rewrite (check_rebalance_condition_value s d lower_price upper_price price w
             Hpos Hlo Hhi Hfeed).
  repeat f_equal. apply orb_true_iff. rewrite !Qle_bool_iff.
  destruct Hout as [Hbelow|Habove]; [left|right]; nra.
Qed.

(** ** Amounts *)

Lemma calculate_swap_amounts_run (s : Bot W) :
  calculate_swap_amounts s
  = let '(w, reply) := binance_fetch_ticker_last "SUI/USDC" (services s) in
    (with_services s w, [EvFetchTicker "SUI/USDC"],
     match reply with
     | Raise e => Raise e
     | Ok price =>
       match truediv (base_amount (config s) * (1 # 2)) price with
       | Raise e => Raise e
       | Ok sui_amount => Ok (sui_amount, base_amount (config s) * (1 # 2))
       end
     end).
Proof.
  unfold calculate_swap_amounts, bind, get_sui_price, service, get_config, lift,
    ret, with_services.
  destruct (binance_fetch_ticker_last "SUI/USDC" (services s)) as [w [price|e]];
    [|reflexivity].
  cbn. destruct (truediv _ price) as [sui_amount|e]; reflexivity.
Qed.

(** X8. [calculate_swap_amounts] fails in two ways only: with the exception
    of the price fetch, or with [ZeroDivisionError] on a fetched price of
    zero.  Either way it made the one fetch and left configuration and
    position alone. *)
Theorem calculate_swap_amounts_failures
    (s s' : Bot W) (t : list event) (e : exn) :
  calculate_swap_amounts s = (s', t, Raise e) ->
  t = [EvFetchTicker "SUI/USDC"]
  /\ config s' = config s
  /\ current_position s' = current_position s
  /\ ((exists w, binance_fetch_ticker_last "SUI/USDC" (services s) = (w, Raise e))
      \/ (exists w price,
            binance_fetch_ticker_last "SUI/USDC" (services s) = (w, Ok price)
            /\ price == 0 /\ e = ZeroDivisionError)).
Proof.
  rewrite calculate_swap_amounts_run.
  destruct (binance_fetch_ticker_last "SUI/USDC" (services s)) as [w [price|e0]].
  - unfold truediv. destruct (Qeq_bool price 0) eqn:Hz; intros [= <- <- <-].
    repeat split. right. exists w, price. repeat split.
    now apply Qeq_bool_iff.
  - intros [= <- <- <-]. repeat split. left. now exists w.
Qed.

(** ** Deposits, on every reply of the chain *)

Lemma add_liquidity_run
    (s : Bot W) (sui_amount usdc_amount : Q) (lower_tick upper_tick : Z) :
  let call := add_liquidity_call (config s) sui_amount usdc_amount lower_tick upper_tick in
  add_liquidity sui_amount usdc_amount lower_tick upper_tick s
  = let '(w, reply) := txer_execute call (services s) in
    (with_services s w, [EvExecute call],
     match reply with
     | Ok (RpcOk result_data) => Ok result_data
     | Ok (RpcFailed result_string) =>
         Raise (Exception ("添加流动性失败: " +:+ result_string))
     | Raise e => Raise e
     end).
Proof.
  unfold add_liquidity, bind, get_config, service, ret, raise, with_services. cbn.
  destruct (txer_execute _ _) as [w [[data|msg]|e]]; reflexivity.
Qed.

(** X10. [add_liquidity] returns [data] exactly when the transaction result
    is ok with that data; a result that is not ok raises [Exception] with the
    result's text after the fixed prefix.  The bot changes only in its
    clients. *)
Theorem add_liquidity_outcome
    (s : Bot W) (sui_amount usdc_amount : Q) (lower_tick upper_tick : Z) :
  let call := add_liquidity_call (config s) sui_amount usdc_amount lower_tick upper_tick in
  (forall s' t data,
     add_liquidity sui_amount usdc_amount lower_tick upper_tick s = (s', t, Ok data)
     <-> exists w, txer_execute call (services s) = (w, Ok (RpcOk data))
                   /\ s' = with_services s w /\ t = [EvExecute call])
  /\ (forall w result_string,
        txer_execute call (services s) = (w, Ok (RpcFailed result_string)) ->
        add_liquidity sui_amount usdc_amount lower_tick upper_tick s
        = (with_services s w, [EvExecute call],
           Raise (Exception ("添加流动性失败: " +:+ result_string)))).
Proof.
  intros call. split.
  - intros s' t data. rewrite add_liquidity_run. fold call.
    destruct (txer_execute call (services s)) as [w [[d|msg]|e]]; split.
    + intros [= <- <- <-]. now exists w.
    + intros (w' & [= <- <-] & -> & ->). reflexivity.
    + intros [=].
    + intros (w' & [=] & _).
    + intros [=].
    + intros (w' & [=] & _).
  - intros w msg Hexec. rewrite add_liquidity_run. fold call. now rewrite Hexec.
Qed.



(** ** The hedge order, on every reply of the venue *)

Lemma execute_hedge_run (s : Bot W) (sui_amount : Q) :
  let order_call := EvCreateMarketSellOrder "SUI/USDC" sui_amount "SHORT" in
  execute_hedge sui_amount s
  = let '(w, reply) :=
      binance_create_market_sell_order "SUI/USDC" sui_amount "SHORT" (services s) in
    match match reply with Ok order => getitem order "id" | Raise e => Raise e end with
    | Ok id => (with_services s w, [order_call], Ok id)
    | Raise e =>
        let text := "对冲订单失败: " +:+ exn_str e in
        let '(s', r) := env_send_alert text (with_services s w) in
        (s', [order_call; EvSendAlert text], map_result (fun _ => VNone) r)
    end.
Proof.
  unfold execute_hedge, try_except, bind, service, lift, send_alert, method, ret,
    with_services.
  destruct (binance_create_market_sell_order _ _ _ _) as [w [order|e]]; cbn.
  - destruct (getitem order "id") as [id|e]; cbn; [reflexivity|].
    destruct (env_send_alert _ _) as [s' [[]|e']]; reflexivity.
  - destruct (env_send_alert _ _) as [s' [[]|e']]; reflexivity.
Qed.

(** X13. An order the venue accepts but answers without an ['id'] is
    handled like a failed one: [send_alert] is called with the text of the
    [KeyError], and the outcome is the one of that alert, [None] when it
    returns and its exception when it raises, although the order was
    placed. *)
Theorem execute_hedge_reply_without_id
    (s : Bot W) (sui_amount : Q) (w : W) (order : gmap string pyval) :
  binance_create_market_sell_order "SUI/USDC" sui_amount "SHORT" (services s)
    = (w, Ok order) ->
  order !! "id" = None ->
  execute_hedge sui_amount s
  = let '(s', r) := env_send_alert "对冲订单失败: 'id'" (with_services s w) in
    (s', [EvCreateMarketSellOrder "SUI/USDC" sui_amount "SHORT";
          EvSendAlert "对冲订单失败: 'id'"],
     map_result (fun _ => VNone) r).
Proof.
  intros Hplace Hid.
  rewrite execute_hedge_run, Hplace. unfold getitem. rewrite Hid.
  cbv beta iota zeta.
  change ("对冲订单失败: " +:+ exn_str (KeyError "id")) with "对冲订单失败: 'id'".
  reflexivity.
Qed.

(** X14. Every run of [execute_hedge] places one order, for the amount it
    was given and on the short side, and sends at most one alert after it;
    and the only exception it lets through is one raised by [send_alert]. *)
Theorem execute_hedge_calls
    (s s' : Bot W) (sui_amount : Q) (t : list event) (r : result pyval) :
  execute_hedge sui_amount s = (s', t, r) ->
  let order_call := EvCreateMarketSellOrder "SUI/USDC" sui_amount "SHORT" in
  (t = [order_call] \/ exists text, t = [order_call; EvSendAlert text])
  /\ (forall e, r = Raise e ->
        exists text s1,
          t = [order_call; EvSendAlert text]
          /\ env_send_alert text s1 = (s', Raise e)).
Proof.
  rewrite execute_hedge_run. cbv zeta.
  destruct (binance_create_market_sell_order _ _ _ _) as [w reply].
  destruct (match reply with Ok order => getitem order "id" | Raise e => Raise e end)
    as [id|e0].
  - intros [= <- <- <-]. split; [now left|]. intros e [=].
  - destruct (env_send_alert _ _) as [s1 r1] eqn:Halert.
    intros [= <- <- <-]. split; [right; eauto|].
    intros e He. destruct r1 as [[]|e1]; cbn in He; [discriminate|].
    injection He as ->. eauto.
Qed.

(** ** Sequencing *)

Lemma bind_inv {A B : Type} (m : M W A) (k : A -> M W B)
    (s s' : Bot W) (t : list event) (r : result B) :
  bind m k s = (s', t, r) ->
  (exists e, m s = (s', t, Raise e) /\ r = Raise e)
  \/ (exists s1 t1 a t2,
        m s = (s1, t1, Ok a) /\ k a s1 = (s', t2, r) /\ t = t1 ++ t2).
Proof.
  unfold bind. destruct (m s) as [[s1 t1] [a|e]].
  - destruct (k a s1) as [[s2 t2] r2] eqn:Hk. intros [= <- <- <-].
    right. exists s1, t1, a, t2. auto.
  - intros [= <- <- <-]. left. now exists e.
Qed.

Lemma main_loop_iteration_parts :
  main_loop_iteration = try_except loop_body loop_handler.
Proof.
  reflexivity.
Qed.

(** ** A failed rebalance *)

(** X15. A rebalance that raises failed in exactly one step, the last one
    it called: the steps before it had returned and the steps after it were
    not called.  In particular a failed price fetch in step 2 leaves the pool
    liquidity removed and the hedge not closed. *)
Theorem rebalance_position_failure_point
    (s s' : Bot W) (t : list event) (e : exn) :
  rebalance_position s = (s', t, Raise e) ->
  (t = [EvRemoveLiquidity] /\ env_remove_liquidity s = (s', Raise e))
  \/ (exists s1 w,
        t = [EvRemoveLiquidity; EvFetchTicker "SUI/USDC"]
        /\ env_remove_liquidity s = (s1, Ok tt)
        /\ binance_fetch_ticker_last "SUI/USDC" (services s1) = (w, Raise e)
        /\ s' = with_services s1 w)
  \/ (exists s1 w price,
        t = [EvRemoveLiquidity; EvFetchTicker "SUI/USDC"; EvCloseHedgePosition]
        /\ env_remove_liquidity s = (s1, Ok tt)
        /\ binance_fetch_ticker_last "SUI/USDC" (services s1) = (w, Ok price)
        /\ env_close_hedge_position (with_services s1 w) = (s', Raise e))
  \/ (exists s1 w price s3,
        t = [EvRemoveLiquidity; EvFetchTicker "SUI/USDC"; EvCloseHedgePosition;
             EvInitializePosition]
        /\ env_remove_liquidity s = (s1, Ok tt)
        /\ binance_fetch_ticker_last "SUI/USDC" (services s1) = (w, Ok price)
        /\ env_close_hedge_position (with_services s1 w) = (s3, Ok tt)
        /\ env_initialize_position s3 = (s', Raise e)).
Proof.
  destruct (env_remove_liquidity s) as [s1 [[]|e1]] eqn:H1.
  2: { rewrite (rebalance_position_removal_raises s s1 e1 H1).
       intros [= <- <- <-]. now left. }
  destruct (binance_fetch_ticker_last "SUI/USDC" (services s1)) as [w [price|e2]] eqn:H2.
  2: { rewrite (rebalance_position_fetch_raises s s1 w e2 H1 H2).
       intros [= <- <- <-]. right; left. now exists s1, w. }
  destruct (env_close_hedge_position (with_services s1 w)) as [s3 [[]|e3]] eqn:H3.
  2: { rewrite (rebalance_position_close_raises s s1 s3 w price e3 H1 H2 H3).
       intros [= <- <- <-]. right; right; left. now exists s1, w, price. }
  destruct (env_initialize_position s3) as [s4 r4] eqn:H4.
  rewrite (rebalance_position_recreates s s1 s3 s4 w price r4 H1 H2 H3 H4).
  intros [= <- <- ->]. right; right; right. now exists s1, w, price, s3.
Qed.

(** ** The report *)

Ltac next_field :=
  match goal with
  | |- context [format_value ?spec ?v] => destruct (format_value spec v) eqn:?
  | |- context [getitem ?d ?k] => destruct (getitem d k) eqn:?
  | |- context [py_abs ?v] => destruct (py_abs v) eqn:?
  end.

(** The calls of [generate_report], whatever the outcome. *)
Lemma generate_report_log (s s' : Bot W) (t : list event) (r : result string) :
  generate_report s = (s', t, r) ->
  (t = [EvGetPoolPosition] /\ exists e, r = Raise e)
  \/ (t = [EvGetPoolPosition; EvFetchPosition "SUI/USDC"] /\ exists e, r = Raise e)
  \/ t = [EvGetPoolPosition; EvFetchPosition "SUI/USDC"; EvFetchTicker "SUI/USDC"].
Proof.
  unfold generate_report, bind, get_pool_position, method, get_sui_price, service,
    lift, ret.
  destruct (env_get_pool_position s) as [s1 [position|e]]; cbn;
    [|intros [= <- <- <-]; eauto].
  destruct (binance_fetch_position "SUI/USDC" (services s1)) as [w2 [binance_pos|e]];
    cbn; [|intros [= <- <- <-]; eauto 6].
  destruct (binance_fetch_ticker_last "SUI/USDC" w2) as [w3 [price|e]];
    cbn; [|intros [= <- <- <-]; eauto].
  repeat (next_field; cbn); intros [= <- <- <-]; eauto.
Qed.

(** X16. [generate_report] asks, in this order, for the pool position, the
    venue's position and the price, and nothing else: every run made an
    initial part of these calls, at least the first, and a run that returned
    a report made all three. *)
Theorem generate_report_calls (s s' : Bot W) (t : list event) (r : result string) :
  generate_report s = (s', t, r) ->
  let calls := [EvGetPoolPosition; EvFetchPosition "SUI/USDC"; EvFetchTicker "SUI/USDC"] in
  (t `prefix_of` calls)
  /\ t <> []
  /\ (forall text, r = Ok text -> t = calls).
Proof.
  intros Hrun calls.
  destruct (generate_report_log s s' t r Hrun) as [[-> [e ->]] | [[-> [e ->]] | ->]].
  - split; [now exists (tail calls)|]. split; [discriminate|]. intros text [=].
  - split; [now exists [EvFetchTicker "SUI/USDC"]|]. split; [discriminate|].
    intros text [=].
  - split; [now exists []|]. split; [discriminate|]. reflexivity.
Qed.

Lemma getitem_negate_deviation_other (d : gmap string pyval) (key : string) :
  key <> "deviation" -> getitem (negate_deviation d) key = getitem d key.
Proof.
  intros Hkey. unfold negate_deviation, getitem.
  destruct (d !! "deviation") as [[| v |]|]; try reflexivity.
  now rewrite lookup_insert_ne.
Qed.

Lemma abs_of_negated_deviation (d : gmap string pyval) :
  match getitem (negate_deviation d) "deviation" with
  | Ok v => py_abs v
  | Raise e => Raise e
  end
  = match getitem d "deviation" with
    | Ok v => py_abs v
    | Raise e => Raise e
    end.
Proof.
  unfold negate_deviation, getitem.
  destruct (d !! "deviation") as [[| v | str]|] eqn:Hdev; rewrite ?Hdev; try reflexivity.
  rewrite lookup_insert_eq. destruct v as [[|n|n] dn]; reflexivity.
Qed.

(** X17. The report does not tell on which side of the range the price is:
    a pool position and the same position with the opposite ['deviation']
    give the same run of [generate_report], text included. *)
Theorem generate_report_hides_deviation_sign (s : Bot W) :
  generate_report (E := with_pool_position E (opposite_deviation E)) s
  = generate_report (E := E) s.
Proof.
  unfold generate_report, bind, get_pool_position, method, get_sui_price, service,
    lift, ret, opposite_deviation.
  cbn -[getitem negate_deviation py_abs].
  destruct (env_get_pool_position s) as [s1 [d|e]];
    cbn -[getitem negate_deviation py_abs]; [|reflexivity].
  rewrite !(getitem_negate_deviation_other d "lower") by discriminate.
  rewrite !(getitem_negate_deviation_other d "upper") by discriminate.
  pose proof (abs_of_negated_deviation d) as Habs.
  destruct (getitem (negate_deviation d) "deviation") as [v'|e'],
           (getitem d "deviation") as [v|e]; cbn -[py_abs] in *.
  - now rewrite Habs.
  - now rewrite Habs.
  - now rewrite <- Habs.
  - now injection Habs as ->.
Qed.

(** ** A pass of the loop *)

Lemma pass_outcome_bind {A : Type} (good : event -> Prop)
    (m : M W A) (k : A -> M W unit) (s s' : Bot W) (t : list event) (r : result unit) :
  bind m k s = (s', t, r) ->
  (forall s1 t1 r1, m s = (s1, t1, r1) -> Forall good t1) ->
  (forall s1 t1 a t2,
     m s = (s1, t1, Ok a) -> k a s1 = (s', t2, r) -> pass_outcome good s' t2 r) ->
  pass_outcome good s' t r.
Proof.
  intros Hrun Hm Hk.
  apply bind_inv in Hrun as [(e & H1 & ->) | (s1 & t1 & a & t2 & H1 & H2 & ->)].
  - exists t. split; [now apply (Hm s' t (Raise e))|]. left. eauto.
  - destruct (Hk s1 t1 a t2 H1 H2) as (t0 & Hgood & Hend).
    exists (t1 ++ t0). split.
    + apply Forall_app. split; [now apply (Hm s1 t1 (Ok a))|exact Hgood].
    + destruct Hend as [[-> He] | [-> ->]]; [left|right]; split; auto.
      now rewrite app_assoc.
Qed.

Lemma pass_outcome_weaken (good good' : event -> Prop)
    (s' : Bot W) (t : list event) (r : result unit) :
  (forall ev, good ev -> good' ev) ->
  pass_outcome good s' t r -> pass_outcome good' s' t r.
Proof.
  intros Himp (t0 & Hgood & Hend). exists t0. split; [|exact Hend].
  eapply Forall_impl; eauto.
Qed.

(** Calls that are neither sleeps nor alerts and, when the check said no
    drift, do not touch the legs. *)
Lemma after_check_log (drifted : bool) (s s' : Bot W) (t : list event) (r : result unit) :
  after_check drifted s = (s', t, r) ->
  pass_outcome (fun ev => silent ev /\ (drifted = false -> touches_legs ev = false))
               s' t r.
Proof.
  intros Hrun. unfold after_check in Hrun.
  eapply pass_outcome_bind; [exact Hrun| |].
  { intros s1 t1 r1 H1. destruct drifted.
    - destruct (rebalance_position_cases s)
        as [(? & ? & _ & H) | [(? & ? & ? & H) | [(? & ? & H) | (? & ? & H)]]];
        rewrite H in H1; injection H1 as <- <- <-;
        repeat constructor; discriminate.
    - injection H1 as <- <- <-. constructor. }
  clear Hrun. intros s1 t1 [] t2 _ Hrun.
  eapply pass_outcome_bind; [exact Hrun| |].
  { intros s2 t2' r2 H2.
    destruct (generate_report_log s1 s2 t2' r2 H2) as [[-> _] | [[-> _] | ->]];
      repeat constructor. }
  clear Hrun. intros s2 t2' report t3 _ Hrun.
  eapply pass_outcome_bind; [exact Hrun| |].
  { intros ? ? ? [= <- <- <-]. constructor. }
  clear Hrun. intros s3 t3' cfg t4 [= <- <- <-] Hrun.
  eapply pass_outcome_bind; [exact Hrun| |].
  { intros s4 t4' r4. unfold service.
    destruct (tg_bot_send_message _ _ _) as [w r5]. intros [= <- <- <-].
    repeat constructor. }
  clear Hrun. intros s4 t4' [] t5 _ Hrun.
  eapply pass_outcome_bind; [exact Hrun| |].
  { intros ? ? ? [= <- <- <-]. constructor. }
  clear Hrun. intros s5 t5' cfg t6 [= <- <- <-] Hrun.
  unfold sleep in Hrun. exists []. split; [constructor|].
  destruct (Qle_bool 0 (check_interval (config s4))); injection Hrun as <- <- <-.
  - now right.
  - left. eauto.
Qed.

(** The three ways a pass of the loop can end. *)
Lemma main_loop_iteration_log (s s' : Bot W) (t : list event) (r : result unit) :
  main_loop_iteration s = (s', t, r) ->
  exists t0,
    Forall silent t0
    /\ ((r = Ok tt /\ t = t0 ++ [EvSleep (check_interval (config s'))])
        \/ (exists text, r = Ok tt /\ t = t0 ++ [EvSendAlert text; EvSleep 60])
        \/ (exists text e, r = Raise e /\ t = t0 ++ [EvSendAlert text])).
Proof.
  rewrite main_loop_iteration_parts. unfold try_except.
  destruct (loop_body s) as [[s1 t1] r1] eqn:Hbody.
  assert (Hout : pass_outcome silent s1 t1 r1).
  { unfold loop_body in Hbody.
    eapply pass_outcome_bind; [exact Hbody| |].
    - intros s2 t2 r2 H2.
      rewrite check_rebalance_condition_run in H2.
      destruct (binance_fetch_ticker_last _ _) as [w reply].
      injection H2 as <- <- <-. repeat constructor.
    - intros s2 t2 drifted t3 _ H3.
      eapply pass_outcome_weaken; [|exact (after_check_log drifted s2 s1 t3 r1 H3)].
      now intros ev [Hsilent _]. }
  destruct Hout as (t0 & Hsilent & [[-> [e ->]] | [-> ->]]).
  - unfold loop_handler, bind, send_alert, method.
    destruct (env_send_alert _ s1) as [s2 [[]|e']].
    + rewrite sleep_returns by discriminate. intros [= <- <- <-].
      exists t0. split; [exact Hsilent|]. right; left. eauto.
    + intros [= <- <- <-]. exists t0. split; [exact Hsilent|]. right; right. eauto.
  - intros [= <- <- <-]. exists t0. split; [exact Hsilent|]. now left.
Qed.

(** X18. A pass of the loop lets an exception through only when
    [send_alert] itself raised it, in the handler: every exception of the
    code inside [try] is turned into an alert. *)
Theorem loop_pass_raises_only_through_alert
    (s s' : Bot W) (t : list event) (e : exn) :
  main_loop_iteration s = (s', t, Raise e) ->
  exists s1 t1 e1,
    loop_body s = (s1, t1, Raise e1)
    /\ env_send_alert ("系统错误: " +:+ exn_str e1) s1 = (s', Raise e)
    /\ t = t1 ++ [EvSendAlert ("系统错误: " +:+ exn_str e1)].
Proof.
  rewrite main_loop_iteration_parts. unfold try_except.
  destruct (loop_body s) as [[s1 t1] [[]|e1]]; [intros [=]|].
  unfold loop_handler, bind, send_alert, method.
  destruct (env_send_alert _ s1) as [s2 [[]|e']] eqn:Halert.
  - rewrite sleep_returns by discriminate. intros [=].
  - intros [= <- <- <-]. exists s1, t1, e1. auto.
Qed.

(** X19. A pass of the loop that returns ends with a sleep, its only one:
    for [check_interval] seconds after a pass without an exception, which
    sent no alert, or for 60 seconds right after the one alert of a pass
    that caught an exception. *)
Theorem loop_pass_ends_with_sleep (s s' : Bot W) (t : list event) :
  main_loop_iteration s = (s', t, Ok tt) ->
  exists t0,
    Forall silent t0
    /\ (t = t0 ++ [EvSleep (check_interval (config s'))]
        \/ exists text, t = t0 ++ [EvSendAlert text; EvSleep 60]).
Proof.
  intros Hrun.
  destruct (main_loop_iteration_log s s' t (Ok tt) Hrun)
    as (t0 & Hsilent & [[_ ->] | [(text & _ & ->) | (text & e & [=] & _)]]);
    exists t0; split; eauto.
Qed.

(** X20. As long as [send_alert] returns, the loop survives whatever the
    exchange, the chain, the messenger and the position methods raise: any
    number of passes runs to its end. *)
Theorem loop_survives_when_alerts_are_sent (n : nat) (s : Bot W) :
  alerts_always_sent E ->
  exists s' t, main_loop_iterations n s = (s', t, Ok tt).
Proof.
  intros Halerts. revert s. induction n as [|n IH]; intros s.
  - exists s, []. reflexivity.
  - cbn [main_loop_iterations]. unfold bind.
    assert (Hpass : exists s1 t1, main_loop_iteration s = (s1, t1, Ok tt)).
    { rewrite main_loop_iteration_parts. unfold try_except.
      destruct (loop_body s) as [[s1 t1] [[]|e1]]; [eauto|].
      unfold loop_handler, bind, send_alert, method.
      destruct (Halerts ("系统错误: " +:+ exn_str e1) s1) as [s2 ->].
      rewrite sleep_returns by discriminate. eauto. }
    destruct Hpass as (s1 & t1 & ->).
    destruct (IH s1) as (s2 & t2 & ->). eauto.
Qed.

Lemma silent_no_sleep (t : list event) :
  Forall silent t -> List.filter is_sleep t = [].
Proof.
  induction 1 as [|ev t [Hsleep _] _ IH]; [reflexivity|].
  cbn. now rewrite Hsleep.
Qed.

Lemma loop_pass_sleep_count (s s' : Bot W) (t : list event) :
  main_loop_iteration s = (s', t, Ok tt) ->
  length (List.filter is_sleep t) = 1%nat.
Proof.
  intros Hrun.
  destruct (main_loop_iteration_log s s' t (Ok tt) Hrun)
    as (t0 & Hsilent & [[_ ->] | [(text & _ & ->) | (text & e & [=] & _)]]);
    now rewrite List.filter_app, (silent_no_sleep t0 Hsilent).
Qed.

(** X21. [n] passes of the loop that ran to their end slept [n] times: no
    pass goes on to the next without sleeping, and none sleeps twice. *)
Theorem loop_sleeps_once_per_pass (n : nat) (s s' : Bot W) (t : list event) :
  main_loop_iterations n s = (s', t, Ok tt) ->
  length (List.filter is_sleep t) = n.
Proof.
  revert s t. induction n as [|n IH]; intros s t.
  - intros [= <- <-]. reflexivity.
  - cbn [main_loop_iterations]. intros Hrun.
    apply bind_inv in Hrun as [(e & _ & [=]) | (s1 & t1 & [] & t2 & H1 & H2 & ->)].
    rewrite List.filter_app, length_app, (IH s1 t2 H2).
    now rewrite (loop_pass_sleep_count s s1 t1 H1).
Qed.

(** X22. The first [initialize_position] of [main_loop] runs outside the
    [try]: when it raises, [main_loop] raises the same exception at once,
    without an alert and without entering the loop, however long it would
    have run. *)
Theorem main_loop_initial_failure_uncaught (n : nat) (s s1 : Bot W) (e : exn) :
  env_initialize_position s = (s1, Raise e) ->
  main_loop n s = (s1, [EvInitializePosition], Raise e).
Proof.
  intros Hinit. unfold main_loop, bind, initialize_position, method.
  now rewrite Hinit.
Qed.

(** X23. When the price fetch of the drift check raises, the pass does
    nothing more than alert with the text of that exception and, the alert
    sent, sleep 60 seconds: no rebalance, no report, and the position record
    is handed to [send_alert] unchanged. *)
Theorem loop_pass_on_failed_price_fetch (s : Bot W) (w : W) (e : exn) :
  binance_fetch_ticker_last "SUI/USDC" (services s) = (w, Raise e) ->
  let text := "系统错误: " +:+ exn_str e in
  main_loop_iteration s
  = let '(s2, r) := env_send_alert text (with_services s w) in
    (s2,
     EvFetchTicker "SUI/USDC" :: EvSendAlert text
       :: match r with Ok _ => [EvSleep 60] | Raise _ => [] end,
     r).
Proof.
  intros Hfeed text.
  rewrite main_loop_iteration_parts. unfold try_except, loop_body, bind.
  rewrite check_rebalance_condition_run, Hfeed.
  unfold loop_handler, bind, send_alert, method. fold text.
  destruct (env_send_alert text (with_services s w)) as [s2 [[]|e']]; [|reflexivity].
  now rewrite sleep_returns by discriminate.
Qed.

(** X24. A pass whose drift check returned [False] leaves both legs alone:
    it calls none of [remove_liquidity], [close_hedge_position] and
    [initialize_position], whatever else happens in it. *)
Theorem loop_pass_without_drift_keeps_legs
    (s s1 s' : Bot W) (t0 t : list event) (r : result unit) :
  check_rebalance_condition s = (s1, t0, Ok false) ->
  main_loop_iteration s = (s', t, r) ->
  Forall (fun ev => touches_legs ev = false) t.
Proof.
  intros Hcheck. rewrite main_loop_iteration_parts.
  unfold try_except, loop_body, bind. rewrite Hcheck.
  assert (Ht0 : Forall (fun ev => touches_legs ev = false) t0).
  { rewrite check_rebalance_condition_run in Hcheck.
    destruct (binance_fetch_ticker_last _ _) as [w reply].
    injection Hcheck as _ <- _. repeat constructor. }
  destruct (after_check false s1) as [[s2 t2] r2] eqn:Hafter.
  destruct (after_check_log false s1 s2 t2 r2 Hafter) as (t3 & Hgood & Hend).
  assert (Ht3 : Forall (fun ev => touches_legs ev = false) t3).
  { eapply Forall_impl; [exact Hgood|]. intros ev [_ H]. now apply H. }
  destruct Hend as [[-> [e ->]] | [-> ->]].
  - unfold loop_handler, bind, send_alert, method.
    destruct (env_send_alert _ s2) as [s3 [[]|e']].
    + rewrite sleep_returns by discriminate. intros [= <- <- <-].
      rewrite !Forall_app. repeat split; auto; repeat constructor.
    + intros [= <- <- <-]. rewrite !Forall_app.
      repeat split; auto; repeat constructor.
  - intros [= <- <- <-]. rewrite !Forall_app.
    repeat split; auto; repeat constructor.
Qed.

(** X25. A pass whose drift check returned [True] goes straight into the
    teardown: its second call, right after the price fetch of the check, is
    [remove_liquidity]. *)
Theorem loop_pass_with_drift_starts_teardown
    (s s1 s' : Bot W) (t0 t : list event) (r : result unit) :
  check_rebalance_condition s = (s1, t0, Ok true) ->
  main_loop_iteration s = (s', t, r) ->
  exists rest, t = EvFetchTicker "SUI/USDC" :: EvRemoveLiquidity :: rest.
Proof.
  intros Hcheck. rewrite main_loop_iteration_parts.
  unfold try_except, loop_body, bind. rewrite Hcheck.
  assert (Ht0 : t0 = [EvFetchTicker "SUI/USDC"]).
  { rewrite check_rebalance_condition_run in Hcheck.
    destruct (binance_fetch_ticker_last _ _) as [w reply].
    now injection Hcheck as _ <- _. }
  subst t0.
  destruct (after_check true s1) as [[s2 t2] r2] eqn:Hafter.
  assert (Ht2 : exists rest, t2 = EvRemoveLiquidity :: rest).
  { unfold after_check in Hafter.
    apply bind_inv in Hafter as [(e & H & _) | (s3 & t3 & a & t4 & H & _ & ->)];
      destruct (rebalance_position_cases s1)
        as [(? & ? & _ & H') | [(? & ? & ? & H') | [(? & ? & H') | (? & ? & H')]]];
      rewrite H' in H; inversion H; subst; cbn; eauto. }
  destruct Ht2 as [rest ->].
  destruct r2 as [[]|e].
  - intros [= <- <- <-]. cbn. eauto.
  - destruct (loop_handler e s2) as [[s3 t3] r3]. intros [= <- <- <-]. cbn. eauto.
Qed.

End Further.

(** * Concrete runs for the further properties *)

Import Faults.

Lemma check_rebalance_condition_only_fetches_witness :
  [EvFetchTicker "SUI/USDC"] = [EvFetchTicker "SUI/USDC"]
  /\ config bot = config bot
  /\ current_position bot = current_position bot.
Proof.
  apply (check_rebalance_condition_only_fetches (E := scripted (calm 1))
           bot bot [EvFetchTicker "SUI/USDC"] (Ok false)).
  reflexivity.
Defined.

Lemma check_rebalance_condition_without_position_witness :
  check_rebalance_condition (E := scripted (calm 1)) (new_bot cfg tt)
  = (new_bot cfg tt, [EvFetchTicker "SUI/USDC"],
     Raise (TypeError "'NoneType' object is not subscriptable")).
Proof.
  apply (check_rebalance_condition_without_position (E := scripted (calm 1))
           (new_bot cfg tt) tt 1).
  - reflexivity.
  - reflexivity.
Defined.

Lemma check_rebalance_condition_missing_bound_witness :
  check_rebalance_condition (E := scripted (calm 1)) (mkBot cfg (Some half_position) tt)
  = (mkBot cfg (Some half_position) tt, [EvFetchTicker "SUI/USDC"],
     Raise (KeyError "upper_price")).
Proof.
  apply (check_rebalance_condition_missing_bound (E := scripted (calm 1))
           (mkBot cfg (Some half_position) tt) half_position tt 1
           eq_refl eq_refl)
    with (v := VNum (95 # 100)).
  - reflexivity.
  - reflexivity.
Defined.

Lemma price_outside_range_drifts_witness :
  check_rebalance_condition (E := scripted (calm (12 # 10))) bot
  = (bot, [EvFetchTicker "SUI/USDC"], Ok true).
Proof.
  apply (price_outside_range_drifts (E := scripted (calm (12 # 10)))
           bot position (95 # 100) (105 # 100) (12 # 10) tt).
  - reflexivity.
  - reflexivity.
  - reflexivity.
  - reflexivity.
  - discriminate.
  - discriminate.
  - discriminate.
  - right. discriminate.
Defined.

Lemma calculate_swap_amounts_failures_witness :
  [EvFetchTicker "SUI/USDC"] = [EvFetchTicker "SUI/USDC"]
  /\ config bot = config bot
  /\ current_position bot = current_position bot
  /\ ((exists w, binance_fetch_ticker_last (Environment := scripted (calm 0))
                   "SUI/USDC" (services bot) = (w, Raise ZeroDivisionError))
      \/ (exists w price,
            binance_fetch_ticker_last (Environment := scripted (calm 0))
              "SUI/USDC" (services bot) = (w, Ok price)
            /\ (price == 0)%Q /\ ZeroDivisionError = ZeroDivisionError)).
Proof.
  apply (calculate_swap_amounts_failures (E := scripted (calm 0))
           bot bot [EvFetchTicker "SUI/USDC"] ZeroDivisionError).
  reflexivity.
Defined.

Lemma add_liquidity_outcome_witness :
  add_liquidity (E := scripted rpc_rejected) 500 500 10 20 bot
  = (bot, [EvExecute (add_liquidity_call cfg 500 500 10 20)],
     Raise (Exception "添加流动性失败: InsufficientGas")).
Proof.
  apply (add_liquidity_outcome (E := scripted rpc_rejected) bot 500 500 10 20).
  reflexivity.
Defined.


Lemma execute_hedge_reply_without_id_witness :
  execute_hedge (E := scripted order_without_id) 500 bot
  = (bot, [EvCreateMarketSellOrder "SUI/USDC" 500 "SHORT";
           EvSendAlert "对冲订单失败: 'id'"],
     Ok VNone).
Proof.
  exact (execute_hedge_reply_without_id (E := scripted order_without_id)
           bot 500 tt {[ "status" := VStr "open" ]} eq_refl eq_refl).
Defined.

Lemma execute_hedge_calls_witness :
  execute_hedge (E := scripted all_down) 500 bot
  = (bot, [EvCreateMarketSellOrder "SUI/USDC" 500 "SHORT";
           EvSendAlert "对冲订单失败: binance GET ticker timed out"],
     Raise outage)
  /\ exists text s1,
       env_send_alert (Environment := scripted all_down) text s1 = (bot, Raise outage).
Proof.
  split; [reflexivity|].
  destruct (execute_hedge_calls (E := scripted all_down) bot bot 500 _ (Raise outage)
              eq_refl) as [_ Hraise].
  destruct (Hraise outage eq_refl) as (text & s1 & _ & Halert).
  exists text, s1. exact Halert.
Defined.

Lemma rebalance_position_failure_point_witness :
  exists s1 w price,
    env_remove_liquidity (Environment := scripted (close_times_out 1)) bot = (s1, Ok tt)
    /\ binance_fetch_ticker_last (Environment := scripted (close_times_out 1))
         "SUI/USDC" (services s1) = (w, Ok price)
    /\ env_close_hedge_position (Environment := scripted (close_times_out 1))
         (with_services s1 w) = (bot, Raise timeout).
Proof.
  destruct (rebalance_position_failure_point (E := scripted (close_times_out 1))
              bot bot
              [EvRemoveLiquidity; EvFetchTicker "SUI/USDC"; EvCloseHedgePosition]
              timeout eq_refl)
    as [[H _] | [(s1 & w & H & _) | [(s1 & w & price & _ & H1 & H2 & H3) | (s1 & w & price & s3 & H & _)]]].
  - discriminate H.
  - discriminate H.
  - exists s1, w, price. auto.
  - discriminate H.
Defined.

Lemma generate_report_calls_witness :
  let run := generate_report (E := scripted (calm 1)) bot in
  let calls := [EvGetPoolPosition; EvFetchPosition "SUI/USDC"; EvFetchTicker "SUI/USDC"] in
  (snd (fst run) `prefix_of` calls)
  /\ snd (fst run) <> []
  /\ (forall text, snd run = Ok text -> snd (fst run) = calls).
Proof.
  intros run.
  apply (generate_report_calls (E := scripted (calm 1))
           bot (fst (fst run)) (snd (fst run)) (snd run)).
  reflexivity.
Defined.

Lemma loop_pass_raises_only_through_alert_witness :
  exists s1 t1 e1,
    loop_body (E := scripted all_down) bot = (s1, t1, Raise e1)
    /\ env_send_alert (Environment := scripted all_down)
         ("系统错误: " +:+ exn_str e1) s1 = (bot, Raise outage)
    /\ [EvFetchTicker "SUI/USDC"; EvSendAlert "系统错误: binance GET ticker timed out"]
       = t1 ++ [EvSendAlert ("系统错误: " +:+ exn_str e1)].
Proof.
  apply (loop_pass_raises_only_through_alert (E := scripted all_down) bot bot).
  reflexivity.
Defined.

Lemma loop_pass_ends_with_sleep_witness :
  let t := snd (fst (main_loop_iteration (E := scripted (calm 1)) bot)) in
  exists t0,
    Forall silent t0
    /\ (t = t0 ++ [EvSleep (check_interval (config bot))]
        \/ exists text, t = t0 ++ [EvSendAlert text; EvSleep 60]).
Proof.
  intros t.
  apply (loop_pass_ends_with_sleep (E := scripted (calm 1)) bot bot t).
  reflexivity.
Defined.

Lemma loop_survives_when_alerts_are_sent_witness :
  exists s' t,
    main_loop_iterations (E := scripted (close_times_out (1045 # 1000))) 3 bot
    = (s', t, Ok tt).
Proof.
  apply (loop_survives_when_alerts_are_sent
           (E := scripted (close_times_out (1045 # 1000))) 3 bot).
  intros text s. exists s. reflexivity.
Defined.

Lemma loop_sleeps_once_per_pass_witness :
  let t := snd (fst (main_loop_iterations (E := scripted (removal_times_out (1045 # 1000)))
                       2 bot)) in
  length (List.filter is_sleep t) = 2%nat.
Proof.
  intros t.
  apply (loop_sleeps_once_per_pass (E := scripted (removal_times_out (1045 # 1000)))
           2 bot bot t).
  reflexivity.
Defined.

Lemma main_loop_initial_failure_uncaught_witness :
  main_loop (E := scripted setup_fails) 5 (new_bot cfg tt)
  = (new_bot cfg tt, [EvInitializePosition], Raise timeout).
Proof.
  apply (main_loop_initial_failure_uncaught (E := scripted setup_fails)
           5 (new_bot cfg tt) (new_bot cfg tt) timeout).
  reflexivity.
Defined.

Lemma loop_pass_on_failed_price_fetch_witness :
  main_loop_iteration (E := scripted feed_down) bot
  = (bot, [EvFetchTicker "SUI/USDC";
           EvSendAlert "系统错误: binance GET ticker timed out"; EvSleep 60],
     Ok tt).
Proof.
  apply (loop_pass_on_failed_price_fetch (E := scripted feed_down) bot tt outage).
  reflexivity.
Defined.

Lemma loop_pass_without_drift_keeps_legs_witness :
  Forall (fun ev => touches_legs ev = false)
         (snd (fst (main_loop_iteration (E := scripted (calm 1)) bot))).
Proof.
  apply (loop_pass_without_drift_keeps_legs (E := scripted (calm 1))
           bot bot bot [EvFetchTicker "SUI/USDC"] _ (Ok tt)).
  - reflexivity.
  - reflexivity.
Defined.

Lemma loop_pass_with_drift_starts_teardown_witness :
  exists rest,
    snd (fst (main_loop_iteration (E := scripted (calm (1045 # 1000))) bot))
    = EvFetchTicker "SUI/USDC" :: EvRemoveLiquidity :: rest.
Proof.
  apply (loop_pass_with_drift_starts_teardown (E := scripted (calm (1045 # 1000)))
           bot bot bot [EvFetchTicker "SUI/USDC"] _ (Ok tt)).
  - reflexivity.
  - reflexivity.
Defined.

(** * Properties on Python's numbers *)

Section OnDoubles.
Local Open Scope Q_scope.

(** ** Signs through rounding *)











(** ** The drift check on doubles *)


Lemma to_float_one : Double.to_float 1 = Ok 1%float.
Proof.
  vm_compute. reflexivity.
Qed.

(** On float bounds and a float threshold the thresholds always evaluate, to
    the rounded products, and the check is the disjunction of the two float
    comparisons. *)
Lemma check_rebalance_condition_on_floats
    (nums : Double.Numbers) (d : gmap string Double.value)
    (lower_price upper_price threshold price : float) :
  Double.rebalance_threshold nums = Double.Float threshold ->
  d !! "lower_price" = Some (Double.VNum (Double.Float lower_price)) ->
  d !! "upper_price" = Some (Double.VNum (Double.Float upper_price)) ->
  Double.check_rebalance_condition nums (Some d) price
  = Ok ((price <=? lower_price * (1 + threshold))%float
        || (upper_price * (1 - threshold) <=? price)%float)%bool.
Proof.
  intros Hth Hlo Hhi.
  unfold Double.check_rebalance_condition, Double.item,
    Double.lower_threshold_of, Double.upper_threshold_of.
  rewrite Hlo, Hhi, Hth. cbn. rewrite to_float_one. cbn.
  destruct (price <=? lower_price * (1 + threshold))%float; reflexivity.
Qed.

(** ** Deposits on doubles *)




(** A product that is an infinity or a NaN stops [add_liquidity] before any
    call is built. *)
Lemma scale_fails_on_unbounded_product
    (amount product : Double.num) (decimals : N) :
  Double.num_mul amount (Double.Int (10 ^ Z.of_N decimals)) = Ok product ->
  Double.num_value product = None ->
  exists e, Double.scale amount decimals = Raise e.
Proof.
  intros Hproduct Hnone. unfold Double.scale. rewrite Hproduct. cbn [Double.and_then].
  destruct product as [z|f]; [discriminate|].
  cbn in *. unfold Double.float_value in Hnone. unfold Double.py_int_float.
  destruct (Prim2SF f); try discriminate; eauto.
Qed.

(** ** A NaN price, a str bound *)

Lemma nan_compares_false (price : float) (n : Double.num) :
  PrimFloat.is_nan price = true ->
  Double.float_le_num price n = false /\ Double.float_ge_num price n = false.
Proof.
  intros Hnan.
  assert (Hsf : Prim2SF price = S754_nan) by (unfold Prim2SF; now rewrite Hnan).
  destruct n as [z|g]; cbn.
  - unfold Double.compare_float_int. now rewrite Hsf.
  - rewrite !FloatAxioms.leb_spec, Hsf. split; [reflexivity|].
    now destruct (Prim2SF g).
Qed.

(** X26. A price that is NaN never triggers a rebalance: on numeric bounds
    whose thresholds evaluate, [check_rebalance_condition] returns [False],
    both comparisons with a NaN being false. *)
Theorem nan_price_never_drifts
    (nums : Double.Numbers) (d : gmap string Double.value)
    (lower_price upper_price lower_threshold upper_threshold : Double.num)
    (price : float) :
  PrimFloat.is_nan price = true ->
  d !! "lower_price" = Some (Double.VNum lower_price) ->
  d !! "upper_price" = Some (Double.VNum upper_price) ->
  Double.lower_threshold_of nums (Double.VNum lower_price)
    = Ok (Double.VNum lower_threshold) ->
  Double.upper_threshold_of nums (Double.VNum upper_price)
    = Ok (Double.VNum upper_threshold) ->
  Double.check_rebalance_condition nums (Some d) price = Ok false.
Proof.
  intros Hnan Hlo Hhi HL HU.
  unfold Double.check_rebalance_condition, Double.item.
  rewrite Hlo, Hhi. cbn [Double.and_then]. rewrite HL, HU. cbn.
  destruct (nan_compares_false price lower_threshold Hnan) as [-> _].
  destruct (nan_compares_false price upper_threshold Hnan) as [_ ->].
  reflexivity.
Qed.

(** X27. The [or] of the check stops at its first operand: once
    [price <= lower_threshold] holds the answer is [True] whatever the upper
    threshold evaluated to, a str included; when it does not hold and the
    upper threshold is a str, the second comparison raises [TypeError]. *)
Theorem check_rebalance_condition_short_circuit
    (nums : Double.Numbers) (d : gmap string Double.value)
    (lower_price lower_threshold : Double.num) (upper_bound upper_threshold : Double.value)
    (price : float) :
  d !! "lower_price" = Some (Double.VNum lower_price) ->
  d !! "upper_price" = Some upper_bound ->
  Double.lower_threshold_of nums (Double.VNum lower_price)
    = Ok (Double.VNum lower_threshold) ->
  Double.upper_threshold_of nums upper_bound = Ok upper_threshold ->
  (Double.float_le_num price lower_threshold = true ->
     Double.check_rebalance_condition nums (Some d) price = Ok true)
  /\ (Double.float_le_num price lower_threshold = false ->
      forall s, upper_threshold = Double.VStr s ->
      Double.check_rebalance_condition nums (Some d) price
      = Raise (TypeError "'>=' not supported between instances of 'float' and 'str'")).
Proof.
  intros Hlo Hhi HL HU.
  unfold Double.check_rebalance_condition, Double.item.
  rewrite Hlo, Hhi. cbn [Double.and_then]. rewrite HL, HU. cbn.
  split.
  - now intros ->.
  - now intros -> s ->.
Qed.

End OnDoubles.

(** * Concrete runs on Python's numbers *)


(** Lower bound 0.05, threshold 0.1: the price 0.05500000000000001 is at the
    rounded threshold and the check says [True]; one step above it says
    [False]. *)
Example drift_at_the_rounded_threshold :
  Double.check_rebalance_condition Double.nums_wide_threshold (Some Double.position)
                                   0.05500000000000001 = Ok true
  /\ Double.check_rebalance_condition Double.nums_wide_threshold (Some Double.position)
                                      0.05500000000000002 = Ok false.
Proof.
  split; reflexivity.
Qed.


Lemma nan_price_never_drifts_witness :
  Double.check_rebalance_condition Double.nums (Some Double.position) nan = Ok false.
Proof.
  apply (nan_price_never_drifts Double.nums Double.position
           (Double.Float 0.05) (Double.Float 1.0)
           (Double.Float (0.05 * (1 + 0.01))) (Double.Float (1.0 * (1 - 0.01))) nan).
  - reflexivity.
  - reflexivity.
  - reflexivity.
  - reflexivity.
  - reflexivity.
Defined.

Lemma check_rebalance_condition_short_circuit_witness :
  Double.check_rebalance_condition Double.nums_int_threshold
    (Some Double.position_str_upper) 1.0 = Ok true.
Proof.
  apply (check_rebalance_condition_short_circuit Double.nums_int_threshold
           Double.position_str_upper (Double.Float 2.0) (Double.Float 2.0)
           (Double.VStr "abc") (Double.VStr "abc") 1.0).
  - reflexivity.
  - reflexivity.
  - reflexivity.
  - reflexivity.
  - reflexivity.
Defined.


(** Price 1.0, capital 1000, range fraction 0.05: the doubles computed are
    0.95 and 1.05 and each leg gets 500.0. *)
Example range_at_price_one_on_doubles :
  Double.new_lower 1.0 Double.nums = Ok 0.95%float
  /\ Double.new_upper 1.0 Double.nums = Ok 1.05%float
  /\ Double.calculate_swap_amounts Double.nums 1.0 = Ok (500%float, 500%float).
Proof.
  repeat split.
Qed.
